(** * The character rules engine of the campaign manager

    A shallow embedding of the TypeScript modules
    [app/modules/utils/character-validation.ts],
    [app/modules/utils/multiclass-system.ts],
    [app/modules/utils/spell-system.ts],
    [app/modules/utils/character-export.ts] and
    [app/modules/characters.ts], followed by the properties of the rules
    engine that are established about them.

    Conventions of the embedding.
    - A JavaScript [number] that holds a level, a score, a weight or a time
      stamp is an integer of [Z]; the two places where the code forms a
      fraction ([x * 0.8] and [level / 2]) are computed in [Q].
    - A string is a [string] of code units below 256.
    - An optional property is an [option]; [None] is [undefined].
    - [CharacterClass] and [CharacterRace] are string-literal unions in the
      TypeScript sources, hence strings at run time.  A table indexed by
      such a string is an association list in declaration order, and a
      lookup finds the own properties of the table: the names of the
      members of [Object.prototype] are not class or race names.
    - A method that pushes onto the shared [ValidationResult] takes the
      result and returns the updated one.
    - A call that can throw evaluates to an [outcome]. *)

From Stdlib Require Import ZArith QArith Qround Qminmax String Ascii List Lia.
From stdpp Require Import base tactics option list strings gmap pretty.
Import ListNotations.

Local Open Scope string_scope.
Local Open Scope list_scope.
Local Open Scope Z_scope.

(** ** Run-time values and exceptions *)

Inductive JsError : Type :=
| TypeError (msg : string)
| Error (msg : string).

Inductive outcome (A : Type) : Type :=
| Returned (a : A)
| Thrown (e : JsError).

Arguments Returned {A} a.
Arguments Thrown {A} e.

Definition obind {A B : Type} (m : outcome A) (k : A -> outcome B) : outcome B :=
  match m with
  | Returned a => k a
  | Thrown e => Thrown e
  end.

#[global] Instance outcome_ret : MRet outcome := fun A a => Returned a.
#[global] Instance outcome_bind : MBind outcome := fun A B k m => obind m k.

(** [xs.forEach(f)] for a callback that may throw: the first exception
    ends the loop. *)
Fixpoint forEachM {A S : Type} (f : A -> S -> outcome S) (xs : list A) (s : S)
  : outcome S :=
  match xs with
  | [] => Returned s
  | x :: rest => s' ← f x s; forEachM f rest s'
  end.

(** Truthiness of a number and of a string. *)
Definition truthyNum (n : Z) : bool := negb (n =? 0).
Definition truthyStr (s : string) : bool := negb (String.eqb s "").

(** [x || d] for an optional number, an optional string and an optional
    array (an array is always truthy). *)
Definition orNum (x : option Z) (d : Z) : Z :=
  match x with
  | Some n => if truthyNum n then n else d
  | None => d
  end.

Definition orStr (x : option string) (d : option string) : option string :=
  match x with
  | Some s => if truthyStr s then Some s else d
  | None => d
  end.

Definition orArr {A : Type} (x : option (list A)) (d : list A) : list A :=
  match x with
  | Some l => l
  | None => d
  end.

(** [arr.includes(x)] on strings and on numbers. *)
Definition includesStr (arr : list string) (x : string) : bool :=
  existsb (String.eqb x) arr.

Definition includesNum (arr : list Z) (x : Z) : bool :=
  existsb (Z.eqb x) arr.

(** [arr.join(sep)]. *)
Definition join (sep : string) (arr : list string) : string :=
  String.concat sep arr.

(** Template-literal interpolation of a number, and of a property that
    holds a number or is [undefined]. *)
Definition numToString (n : Z) : string := pretty n.

Definition optNumToString (x : option Z) : string :=
  match x with
  | Some n => numToString n
  | None => "undefined"
  end.

(** [toUpperCase] and [toLowerCase] on the letters a-z and A-Z. *)
Definition upperAscii (c : ascii) : ascii :=
  let n := nat_of_ascii c in
  if ((97 <=? n) && (n <=? 122))%nat then ascii_of_nat (n - 32) else c.

Definition lowerAscii (c : ascii) : ascii :=
  let n := nat_of_ascii c in
  if ((65 <=? n) && (n <=? 90))%nat then ascii_of_nat (n + 32) else c.

Fixpoint toLowerCase (s : string) : string :=
  match s with
  | EmptyString => EmptyString
  | String c rest => String (lowerAscii c) (toLowerCase rest)
  end.

(** [s.charAt(0).toUpperCase() + s.slice(1)]. *)
Definition capitalize (s : string) : string :=
  match s with
  | EmptyString => EmptyString
  | String c rest => String (upperAscii c) rest
  end.

(** [s.replace(pat, rep)] for a string pattern: the first occurrence. *)
Fixpoint replaceFirst (pat rep s : string) : string :=
  if String.prefix pat s
  then rep +:+ String.substring (String.length pat)
                                (String.length s - String.length pat) s
  else match s with
       | EmptyString => EmptyString
       | String c rest => String c (replaceFirst pat rep rest)
       end.

(** [s.trim()]: white space is removed at both ends. *)
Definition isWhiteSpace (c : ascii) : bool :=
  let n := nat_of_ascii c in
  (((9 <=? n) && (n <=? 13)) || (n =? 32) || (n =? 160))%nat.

Fixpoint trimStart (s : string) : string :=
  match s with
  | EmptyString => EmptyString
  | String c rest => if isWhiteSpace c then trimStart rest else s
  end.

Definition trim (s : string) : string :=
  String.rev (trimStart (String.rev (trimStart s))).

(** [a > b * 0.8] for integers [a] and [b]. *)
Definition gtFourFifths (a b : Z) : bool :=
  negb (Qle_bool (inject_Z a) (inject_Z b * (8 # 10))).

(** [Math.floor(q)]. *)
Definition mathFloor (q : Q) : Z := Qfloor q.

(** [Math.floor(n / 2)] for an integer [n]. *)
Definition floorHalf (n : Z) : Z := mathFloor (inject_Z n / 2).

(** The conversion of an index argument to an integer: truncation. *)
Definition toIntegerOrInfinity (q : Q) : Z :=
  if Qle_bool 0 q then Qfloor q else Qceiling q.

(** [arr.slice(0, end)]: a negative [end] counts from the end of the
    array, and the bounds are clamped to the array. *)
Definition slice0 {A : Type} (arr : list A) (end_ : Q) : list A :=
  let len := Z.of_nat (length arr) in
  let relativeEnd := toIntegerOrInfinity end_ in
  let final := if relativeEnd <? 0 then Z.max (len + relativeEnd) 0
               else Z.min relativeEnd len in
  firstn (Z.to_nat final) arr.

(** Own-property lookup in a table keyed by strings. *)
Fixpoint tableGet {V : Type} (tbl : list (string * V)) (key : string) : option V :=
  match tbl with
  | [] => None
  | (k, v) :: rest => if String.eqb key k then Some v else tableGet rest key
  end.

(** ** The data model ([app/modules/characters.ts]) *)

Inductive CharacterStatus : Type := ACTIVE | INACTIVE | DECEASED | RETIRED.

(** Modelled from the spec: the interface [AbilityScores] is imported by
    [characters.ts] but declared elsewhere; it is the mapping of the six
    fixed ability names to their scores. *)
Record AbilityScores : Type := mkAbilityScores {
  strength : Z;
  dexterity : Z;
  constitution : Z;
  intelligence : Z;
  wisdom : Z;
  charisma : Z
}.

(** Modelled from the spec: [CharacterSpell] / [Spell] is declared
    elsewhere: name, level, school, and the [prepared] mark set by the
    daily preparation. *)
Record Spell : Type := mkSpell {
  spell_name : string;
  spell_level : Z;
  school : option string;
  prepared : option bool
}.

(** Modelled from the spec: [CharacterItem] is declared elsewhere: id,
    name and weight. *)
Record CharacterItem : Type := mkItem {
  item_id : string;
  item_name : string;
  weight : option Z
}.

Record Traits : Type := mkTraits {
  personality : list string;
  ideals : list string;
  bonds : list string;
  flaws : list string
}.

Record Alignment : Type := mkAlignment {
  moral : string;
  ethical : string
}.

Record MulticlassEntry : Type := mkMulticlass {
  mc_class : string;
  mc_level : Z
}.

(** Modelled from the spec: the element type of [archetypeFeatures] is
    declared elsewhere; the validation only hands the first element to
    [CharacterArchetypeSystem]. *)
Definition ArchetypeFeature : Type := string.

(** A character object.  [id], [status] and [campaignId] are optional
    because the export payload is a character without them
    ([Partial<Character>] cast back to [Character] on import);
    [multiclass], [archetypeFeatures], [alignment] and [skills] are the
    properties read by the validation; [exportedAt] is the property added
    by [sanitizeCharacterData]. *)
Record Character : Type := mkCharacter {
  id : option string;
  name : string;
  race : string;
  class : string;
  level : Z;
  experience : Z;
  status : option CharacterStatus;
  abilityScores : AbilityScores;
  hitPoints : Z;
  armorClass : Z;
  campaignId : option string;
  inventory : option (list CharacterItem);
  spells : option (list Spell);
  backstory : option string;
  traits : option Traits;
  multiclass : option (list MulticlassEntry);
  archetypeFeatures : option (list ArchetypeFeature);
  alignment : option Alignment;
  skills : option (list (string * Z));
  exportedAt : option Z
}.

(** [Object.entries(character.abilityScores)]. *)
Definition abilityEntries (a : AbilityScores) : list (string * Z) :=
  [ ("strength", strength a); ("dexterity", dexterity a);
    ("constitution", constitution a); ("intelligence", intelligence a);
    ("wisdom", wisdom a); ("charisma", charisma a) ].

(** [character.abilityScores[key]]. *)
Definition scoreOf (a : AbilityScores) (key : string) : option Z :=
  tableGet (abilityEntries a) key.

(** The object returned by a validation delegate: the validation reads
    its [isValid] and [errors] properties. *)
Record DelegateResult : Type := mkDelegate {
  dr_isValid : bool;
  dr_errors : list string
}.

(** ** [MulticlassSystem] ([app/modules/utils/multiclass-system.ts]) *)

Module MulticlassSystem.

Definition multiclassPrerequisites : list (string * list (string * Z)) :=
  [ ("Paladin", [("strength", 13); ("charisma", 13)]);
    ("Wizard", [("intelligence", 13)]);
    ("Rogue", [("dexterity", 13)]);
    ("Fighter", [("strength", 13); ("dexterity", 13)]) ].

(** [undefined >= minScore] is false. *)
Definition meets (a : AbilityScores) (req : string * Z) : bool :=
  match scoreOf a (fst req) with
  | Some score => snd req <=? score
  | None => false
  end.

Definition canMulticlass (character : Character) (targetClass : string) : bool :=
  if String.eqb (class character) targetClass then false
  else match tableGet multiclassPrerequisites targetClass with
       | None => true
       | Some minimumScores =>
           forallb (meets (abilityScores character)) minimumScores
       end.

Definition hitDiceByClass : list (string * Z) :=
  [ ("Barbarian", 12); ("Fighter", 10); ("Paladin", 10); ("Ranger", 10);
    ("Wizard", 6); ("Rogue", 8); ("Cleric", 8); ("Druid", 8) ].

Definition calculateMulticlassHitPoints
    (character : Character) (newClass : string) : Z :=
  let constitutionModifier :=
    floorHalf (constitution (abilityScores character) - 10) in
  let baseHitDice := orNum (tableGet hitDiceByClass newClass) 8 in
  Z.max 1 (floorHalf baseHitDice + constitutionModifier).

(** [MulticlassSystem.validateMulticlassing(character, targetClass)], as
    called at character-validation.ts:172.  The class declares
    [multiclassPrerequisites], [canMulticlass],
    [calculateMulticlassHitPoints], [performMulticlass],
    [updateMulticlassSpells] and [getInitialClassSpells] and no member
    [validateMulticlassing]: the property read yields [undefined], and
    calling it raises a [TypeError]. *)
Definition validateMulticlassing
    (character : Character) (targetClass : string) : outcome DelegateResult :=
  Thrown (TypeError "MulticlassSystem.validateMulticlassing is not a function").








End MulticlassSystem.

(** ** [SpellSystem] ([app/modules/utils/spell-system.ts]) *)

Module SpellSystem.

Record SpellRules : Type := mkRules {
  maxSpellsPerLevel : Z;
  spellLearningLevels : list Z;
  spellListByLevel : list (Z * list Spell)
}.

Definition spell (n : string) (l : Z) (s : string) : Spell :=
  mkSpell n l (Some s) None.

Definition spellLearningRules : list (string * SpellRules) :=
  [ ("Wizard",
     mkRules 6 [1; 2; 4; 8; 12; 16; 19]
       [ (1, [ spell "Magic Missile" 1 "Evocation";
               spell "Shield" 1 "Abjuration";
               spell "Mage Armor" 1 "Abjuration" ]);
         (2, [ spell "Misty Step" 2 "Conjuration";
               spell "Scorching Ray" 2 "Evocation" ]) ]);
    ("Cleric",
     mkRules 5 [1; 3; 5; 7; 9; 11; 13; 15; 17; 19]
       [ (1, [ spell "Cure Wounds" 1 "Healing";
               spell "Bless" 1 "Support" ]);
         (2, [ spell "Spiritual Weapon" 2 "Evocation" ]) ]) ].

(** [spellListByLevel[level]]. *)
Fixpoint levelGet {V : Type} (tbl : list (Z * V)) (key : Z) : option V :=
  match tbl with
  | [] => None
  | (k, v) :: rest => if key =? k then Some v else levelGet rest key
  end.

Definition getNewSpellsForLevel (character : Character) : list Spell :=
  match tableGet spellLearningRules (class character) with
  | None => []
  | Some classRules =>
      if negb (includesNum (spellLearningLevels classRules) (level character))
      then []
      else
        let availableSpellLevel := floorHalf (level character) in
        let newSpells :=
          orArr (levelGet (spellListByLevel classRules) availableSpellLevel) [] in
        slice0 newSpells (inject_Z (maxSpellsPerLevel classRules))
  end.

(** *** The object store of the daily preparation

    [prepareDailySpells] builds new arrays and new spell objects.  To
    tell them from the ones the character owns, arrays and spell objects
    live in a store of cells, and an array holds references. *)

Definition loc : Type := positive.

Inductive cell : Type :=
| SpellCell (s : Spell)
| ArrayCell (elems : list loc).

(** A new object is placed at a reference that is not in use. *)
Definition alloc (v : cell) (h : gmap loc cell) : loc * gmap loc cell :=
  let l := fresh (dom h) in (l, <[l := v]> h).

(** [arr.slice(0, end)]: a new array with the same references. *)
Definition sliceArr (arr : loc) (end_ : Q) (h : gmap loc cell)
  : option (loc * gmap loc cell) :=
  match h !! arr with
  | Some (ArrayCell elems) => Some (alloc (ArrayCell (slice0 elems end_)) h)
  | _ => None
  end.

(** [{ ...spell, prepared: true }]. *)
Definition markPrepared (s : Spell) : Spell :=
  mkSpell (spell_name s) (spell_level s) (school s) (Some true).

(** The callback of [map], applied from left to right: each call builds
    a new object. *)
Fixpoint mapPrepared (elems : list loc) (h : gmap loc cell)
  : option (list loc * gmap loc cell) :=
  match elems with
  | [] => Some ([], h)
  | p :: rest =>
      match h !! p with
      | Some (SpellCell s) =>
          let '(q, h1) := alloc (SpellCell (markPrepared s)) h in
          match mapPrepared rest h1 with
          | Some (qs, h2) => Some (q :: qs, h2)
          | None => None
          end
      | _ => None
      end
  end.

(** [arr.map(spell => ({ ...spell, prepared: true }))]: a new array. *)
Definition mapArr (arr : loc) (h : gmap loc cell)
  : option (loc * gmap loc cell) :=
  match h !! arr with
  | Some (ArrayCell elems) =>
      match mapPrepared elems h with
      | Some (qs, h1) => Some (alloc (ArrayCell qs) h1)
      | None => None
      end
  | _ => None
  end.

(** [prepareDailySpells(character)].  The scalar properties are read
    from the record; [spellsRef] is the value of [character.spells], a
    reference to an array in the store or [undefined].  The result is
    the reference of the returned array and the store after the call;
    [None] only when the store does not hold what the references
    promise. *)
Definition prepareDailySpells
    (character : Character) (spellsRef : option loc) (h : gmap loc cell)
  : option (loc * gmap loc cell) :=
  let wisdomModifier := floorHalf (wisdom (abilityScores character) - 10) in
  let preparableSpells :=
    Qmax 1 (inject_Z (level character) / 2 + inject_Z wisdomModifier) in
  let '(arr, h0) :=
    match spellsRef with
    | Some a => (a, h)
    | None => alloc (ArrayCell []) h
    end in
  match sliceArr arr preparableSpells h0 with
  | Some (sliced, h1) => mapArr sliced h1
  | None => None
  end.

(** Reading an array of spells back from the store. *)
Fixpoint readCells (elems : list loc) (h : gmap loc cell) : option (list Spell) :=
  match elems with
  | [] => Some []
  | p :: rest =>
      match h !! p, readCells rest h with
      | Some (SpellCell s), Some ss => Some (s :: ss)
      | _, _ => None
      end
  end.

Definition readSpells (arr : loc) (h : gmap loc cell) : option (list Spell) :=
  match h !! arr with
  | Some (ArrayCell elems) => readCells elems h
  | _ => None
  end.

(** The store holds the spell list of the character at [spellsRef]. *)
Definition spellsStored
    (h : gmap loc cell) (spellsRef : option loc) (known : option (list Spell))
  : Prop :=
  match spellsRef, known with
  | None, None => True
  | Some a, Some l => readSpells a h = Some l
  | _, _ => False
  end.

Record SpellSlots : Type := mkSlots {
  cantrips : Z;
  level1Slots : Z;
  level2Slots : option Z;
  level3Slots : option Z
}.

Definition spellSlotProgression : list (string * list (Z * SpellSlots)) :=
  [ ("Wizard", [ (1, mkSlots 3 2 None None);
                 (2, mkSlots 3 3 None None);
                 (3, mkSlots 3 4 (Some 2) None) ]);
    ("Cleric", [ (1, mkSlots 3 2 None None);
                 (2, mkSlots 3 3 None None);
                 (3, mkSlots 3 4 (Some 2) None) ]) ].

(** [spellSlotProgression[class]?.[level] || { cantrips: 2, level1Slots: 2 }]. *)
Definition calculateSpellSlots (character : Character) : SpellSlots :=
  match tableGet spellSlotProgression (class character) with
  | Some byLevel =>
      match levelGet byLevel (level character) with
      | Some slots => slots
      | None => mkSlots 2 2 None None
      end
  | None => mkSlots 2 2 None None
  end.

Record LearningResult : Type := mkLearning {
  canLearn : bool;
  learning_errors : list string
}.

Definition validateSpellLearning (character : Character) (sp : Spell)
  : LearningResult :=
  match tableGet spellLearningRules (class character) with
  | None => mkLearning false ["Spell learning not supported for this class"]
  | Some classRules =>
      let errors : list string := [] in
      let errors :=
        if maxSpellsPerLevel classRules
           <=? orNum (option_map (fun l => Z.of_nat (length l))
                                 (spells character)) 0
        then errors ++ ["Maximum spell limit reached"]
        else errors in
      let availableSpellLevel := floorHalf (level character) in
      let errors :=
        if availableSpellLevel <? spell_level sp
        then errors ++ ["Spell level too high for current character level"]
        else errors in
      mkLearning (length errors =? 0)%nat errors
  end.

End SpellSystem.

(** ** [CharacterValidationSystem]
       ([app/modules/utils/character-validation.ts]) *)

Record ValidationResult : Type := mkResult {
  isValid : bool;
  errors : list string;
  warnings : list string
}.

(** [result.errors.push(msg)], [result.errors.push(...msgs)] and
    [result.warnings.push(msg)]. *)
Definition pushError (msg : string) (r : ValidationResult) : ValidationResult :=
  mkResult (isValid r) (errors r ++ [msg]) (warnings r).

Definition pushErrors (msgs : list string) (r : ValidationResult) : ValidationResult :=
  mkResult (isValid r) (errors r ++ msgs) (warnings r).

Definition pushWarning (msg : string) (r : ValidationResult) : ValidationResult :=
  mkResult (isValid r) (errors r) (warnings r ++ [msg]).

(** [when b f r]: the statement [if (b) { f }] on the shared result. *)
Definition when (b : bool) (f : ValidationResult -> ValidationResult)
    (r : ValidationResult) : ValidationResult :=
  if b then f r else r.

(** [x && p(x)] for an optional number [x]. *)
Definition andNum (x : option Z) (p : Z -> bool) : bool :=
  match x with
  | Some n => truthyNum n && p n
  | None => false
  end.

(** [x < n] where [x] may be [undefined]. *)
Definition ltUndef (x : option Z) (n : Z) : bool :=
  match x with
  | Some v => v <? n
  | None => false
  end.

Definition validRaces : list string :=
  ["Human"; "Elf"; "Dwarf"; "Halfling"; "Gnome"].

Definition validClasses : list string :=
  ["Fighter"; "Wizard"; "Rogue"; "Cleric"; "Barbarian"; "Ranger"; "Paladin";
   "Druid"; "Monk"; "Warlock"].

Definition validateBasicInfo (character : Character) (result : ValidationResult)
  : ValidationResult :=
  let result :=
    when (negb (truthyStr (name character))
          || (String.length (trim (name character)) <? 2)%nat)
      (pushError "Character name must be at least 2 characters long") result in
  let result :=
    when (truthyStr (name character)
          && (50 <? String.length (name character))%nat)
      (pushWarning "Character name is unusually long") result in
  let result :=
    when (negb (includesStr validRaces (race character)))
      (pushError ("Invalid race. Must be one of: " +:+ join ", " validRaces))
      result in
  let result :=
    when (negb (includesStr validClasses (class character)))
      (pushError ("Invalid class. Must be one of: " +:+ join ", " validClasses))
      result in
  let result :=
    when (level character <? 1)
      (pushError "Character level must be at least 1") result in
  let result :=
    when (20 <? level character)
      (pushError "Character level cannot exceed 20") result in
  when (10 <? level character)
    (pushWarning "High-level character detected") result.

Record RaceRestrictions : Type := mkRestrictions {
  minTotalScore : option Z;
  maxTotalScore : option Z;
  balancedScores : option bool;
  minDexterity : option Z;
  maxIntelligence : option Z;
  minConstitution : option Z;
  maxStrength : option Z
}.

Definition racialAbilityRestrictions : list (string * RaceRestrictions) :=
  [ ("Human", mkRestrictions (Some 60) (Some 80) (Some true) None None None None);
    ("Elf", mkRestrictions None None None (Some 12) (Some 18) None None);
    ("Dwarf", mkRestrictions None None None None None (Some 12) (Some 18)) ].

Definition minScore : Z := 3.
Definition maxScore : Z := 20.

(** The message of the range check of one ability score. *)
Definition scoreRangeMessage (ability : string) : string :=
  capitalize ability +:+ " score must be between " +:+ numToString minScore
    +:+ " and " +:+ numToString maxScore.

Definition checkScoreRange (acc : ValidationResult) (entry : string * Z)
  : ValidationResult :=
  when ((snd entry <? minScore) || (maxScore <? snd entry))
    (pushError (scoreRangeMessage (fst entry))) acc.

Definition validateAbilityScores (character : Character) (result : ValidationResult)
  : ValidationResult :=
  let result :=
    fold_left checkScoreRange (abilityEntries (abilityScores character)) result in
  match tableGet racialAbilityRestrictions (race character) with
  | Some raceRestrictions =>
      let totalScore :=
        fold_left (fun a b => a + b)
                  (map snd (abilityEntries (abilityScores character))) 0 in
      let result :=
        when (andNum (minTotalScore raceRestrictions) (fun m => totalScore <? m))
          (pushWarning ("Total ability scores are low for " +:+ race character))
          result in
      let result :=
        when (andNum (maxTotalScore raceRestrictions) (fun m => m <? totalScore))
          (pushWarning ("Total ability scores are high for " +:+ race character))
          result in
      when (andNum (minDexterity raceRestrictions)
                   (fun m => dexterity (abilityScores character) <? m))
        (pushError ("Dexterity must be at least "
                    +:+ optNumToString (minDexterity raceRestrictions)
                    +:+ " for " +:+ race character))
        result
  | None => result
  end.

Definition classRequirements : list (string * list (string * Z)) :=
  [ ("Fighter", [("minStrength", 13); ("minConstitution", 12)]);
    ("Wizard", [("minIntelligence", 14); ("minDexterity", 10)]);
    ("Rogue", [("minDexterity", 13); ("minIntelligence", 10)]);
    ("Cleric", [("minWisdom", 13); ("minConstitution", 10)]) ].

(** The message of an unmet class minimum. *)
Definition classMinimumMessage (abilityName : string) (minimum : Z) (cls : string)
  : string :=
  capitalize abilityName +:+ " must be at least " +:+ numToString minimum
    +:+ " for " +:+ cls.

Definition checkClassMinimum (character : Character)
    (acc : ValidationResult) (entry : string * Z) : ValidationResult :=
  let abilityName := toLowerCase (replaceFirst "min" "" (fst entry)) in
  when (ltUndef (scoreOf (abilityScores character) abilityName) (snd entry))
    (pushError (classMinimumMessage abilityName (snd entry) (class character)))
    acc.

Definition validateClassRequirements
    (character : Character) (result : ValidationResult) : ValidationResult :=
  match tableGet classRequirements (class character) with
  | Some requirements => fold_left (checkClassMinimum character) requirements result
  | None => result
  end.

(** Lines 179-186: the check of the combined level. *)
Definition checkTotalLevel (character : Character)
    (entries : list MulticlassEntry) (result : ValidationResult) : ValidationResult :=
  let totalLevel :=
    orNum (Some (fold_left (fun sum mc => sum + mc_level mc) entries 0)) 0
    + level character in
  let result :=
    when (20 <? totalLevel)
      (pushError "Total character levels cannot exceed 20") result in
  when (15 <? totalLevel)
    (pushWarning "High total character levels detected") result.

Definition validateMulticlassing
    (character : Character) (result : ValidationResult) : outcome ValidationResult :=
  match multiclass character with
  | Some ((_ :: _) as entries) =>
      result ← forEachM
        (fun mc acc =>
           multiclassValidation ←
             MulticlassSystem.validateMulticlassing character (mc_class mc);
           mret (when (negb (dr_isValid multiclassValidation))
                   (pushErrors (dr_errors multiclassValidation)) acc))
        entries result;
      mret (checkTotalLevel character entries result)
  | _ => mret result
  end.

Definition validAlignments : list string :=
  [ "Lawful Good"; "Neutral Good"; "Chaotic Good";
    "Lawful Neutral"; "True Neutral"; "Chaotic Neutral";
    "Lawful Evil"; "Neutral Evil"; "Chaotic Evil" ].

Definition checkSkillLevel (acc : ValidationResult) (entry : string * Z)
  : ValidationResult :=
  when ((snd entry <? 0) || (20 <? snd entry))
    (pushError ("Skill " +:+ fst entry +:+ " level must be between 0 and 20"))
    acc.

Definition validateSkills (character : Character) (result : ValidationResult)
  : ValidationResult :=
  match skills character with
  | Some sk =>
      let result := fold_left checkSkillLevel sk result in
      let maxSkillPoints := level character * 2 in
      let totalSkillPoints :=
        fold_left (fun sum lvl => sum + lvl) (map snd sk) 0 in
      let result :=
        when (maxSkillPoints <? totalSkillPoints)
          (pushError ("Total skill points (" +:+ numToString totalSkillPoints
                      +:+ ") cannot exceed " +:+ numToString maxSkillPoints))
          result in
      when (gtFourFifths totalSkillPoints maxSkillPoints)
        (pushWarning "Skill points are near maximum allocation") result
  | None => result
  end.

(** One turn of the loop over the inventory that looks for repeated ids:
    the state is the set [uniqueItemIds] and the result. *)
Definition checkUniqueItem (st : gset string * ValidationResult) (item : CharacterItem)
  : gset string * ValidationResult :=
  let result :=
    when (bool_decide (item_id item ∈ st.1))
      (pushError ("Duplicate item found: " +:+ item_name item)) st.2 in
  ({[ item_id item ]} ∪ st.1, result).

Definition validateInventory (character : Character) (result : ValidationResult)
  : ValidationResult :=
  match inventory character with
  | Some inv =>
      let maxCarryWeight := 15 * strength (abilityScores character) in
      let totalWeight :=
        fold_left (fun sum item => sum + orNum (weight item) 0) inv 0 in
      let result :=
        when (maxCarryWeight <? totalWeight)
          (pushError ("Inventory weight (" +:+ numToString totalWeight
                      +:+ ") exceeds carrying capacity of "
                      +:+ numToString maxCarryWeight))
          result in
      let result :=
        when (gtFourFifths totalWeight maxCarryWeight)
          (pushWarning "Inventory is near maximum carrying capacity") result in
      (fold_left checkUniqueItem inv (∅, result)).2
  | None => result
  end.

(** [Object.entries(character.traits || {})]. *)
Definition traitEntries (t : option Traits) : list (string * list string) :=
  match t with
  | Some t => [ ("personality", personality t); ("ideals", ideals t);
                ("bonds", bonds t); ("flaws", flaws t) ]
  | None => []
  end.

Definition checkTraitList (acc : ValidationResult) (entry : string * list string)
  : ValidationResult :=
  let acc :=
    when (length (snd entry) =? 0)%nat
      (pushWarning ("No " +:+ fst entry +:+ " traits specified")) acc in
  when (3 <? length (snd entry))%nat
    (pushWarning ("Excessive number of " +:+ fst entry +:+ " traits")) acc.

Definition validateBackstory (character : Character) (result : ValidationResult)
  : ValidationResult :=
  let result :=
    match backstory character with
    | Some text =>
        if truthyStr text
        then when (1000 <? String.length text)%nat
               (pushWarning "Backstory is unusually long") result
        else pushWarning "No backstory provided" result
    | None => pushWarning "No backstory provided" result
    end in
  fold_left checkTraitList (traitEntries (traits character)) result.

(** ** The clock and the id generator

    [Date.now()] and [uuidv4()] read the outside world: the world holds
    the sequence of clock readings and the sequence of generated ids, and
    each call consumes the next one. *)

Record World : Type := mkWorld {
  clock : nat -> Z;
  clockReads : nat;
  uuids : nat -> string;
  uuidsDrawn : nat
}.

Definition Date_now (w : World) : Z * World :=
  (clock w (clockReads w),
   mkWorld (clock w) (S (clockReads w)) (uuids w) (uuidsDrawn w)).

Definition uuidv4 (w : World) : string * World :=
  (uuids w (uuidsDrawn w),
   mkWorld (clock w) (clockReads w) (uuids w) (S (uuidsDrawn w))).

(** ** The export envelope ([app/modules/utils/character-export.ts]) *)

Record ExportMetadata : Type := mkMetadata {
  validationResult : ValidationResult;
  exportVersion : string;
  backupType : option string
}.

Record ExportFormat : Type := mkExport {
  version : string;
  exportId : string;
  timestamp : Z;
  character : Character;
  metadata : ExportMetadata
}.

Record ExportResult : Type := mkExportResult {
  export_success : bool;
  export_data : option ExportFormat;
  export_errors : option (list string)
}.

Record ImportResult : Type := mkImportResult {
  import_success : bool;
  import_character : option Character;
  import_errors : option (list string)
}.

Definition MAX_EXPORT_AGE : Z := 365 * 24 * 60 * 60 * 1000.

(** The object that [createCharacterBackup] returns. *)
Record BackupResult : Type := mkBackupResult {
  backup_success : bool;
  backup : option ExportFormat;
  backup_errors : option (list string)
}.

(** [{ ...character, id: newId }]. *)
Definition withId (newId : option string) (c : Character) : Character :=
  mkCharacter newId (name c) (race c) (class c) (level c) (experience c)
    (status c) (abilityScores c) (hitPoints c) (armorClass c) (campaignId c)
    (inventory c) (spells c) (backstory c) (traits c) (multiclass c)
    (archetypeFeatures c) (alignment c) (skills c) (exportedAt c).

(** [sanitizeCharacterData]: the rest of the character after [id],
    [status] and [campaignId] are taken out, with [exportedAt] set. *)
Definition sanitizeCharacterData (c : Character) (w : World) : Character * World :=
  let '(now, w) := Date_now w in
  (mkCharacter None (name c) (race c) (class c) (level c) (experience c)
     None (abilityScores c) (hitPoints c) (armorClass c) None
     (inventory c) (spells c) (backstory c) (traits c) (multiclass c)
     (archetypeFeatures c) (alignment c) (skills c) (Some now), w).

Section Collaborators.

(** [CharacterArchetypeSystem.validateArchetypeSelection] and the table
    [AlignmentSystem.alignmentDefinitions] belong to modules that are
    imported by the validation and are not among the sources; the
    validation is defined for any archetype check and any table of
    named alignments. *)
Variable validateArchetypeSelection :
  Character -> option ArchetypeFeature -> DelegateResult.
Variable alignmentDefinitions : list (string * Alignment).

Definition validateArchetype (character : Character) (result : ValidationResult)
  : ValidationResult :=
  match archetypeFeatures character with
  | Some features =>
      let archetypeValidation :=
        validateArchetypeSelection character (head features) in
      when (negb (dr_isValid archetypeValidation))
        (pushErrors (dr_errors archetypeValidation)) result
  | None =>
      pushWarning ("No archetype selected for " +:+ class character) result
  end.

Definition validateAlignment (character : Character) (result : ValidationResult)
  : ValidationResult :=
  match alignment character with
  | Some al =>
      let alignmentName :=
        option_map fst
          (find (fun entry =>
                   String.eqb (moral (snd entry)) (moral al)
                   && String.eqb (ethical (snd entry)) (ethical al))
                alignmentDefinitions) in
      when (match alignmentName with
            | Some n => negb (truthyStr n) || negb (includesStr validAlignments n)
            | None => true
            end)
        (pushError "Invalid character alignment") result
  | None => pushWarning "No alignment specified" result
  end.

Definition validateCharacter (character : Character) : outcome ValidationResult :=
  let result := mkResult true [] [] in
  let result := validateBasicInfo character result in
  let result := validateAbilityScores character result in
  let result := validateClassRequirements character result in
  result ← validateMulticlassing character result;
  let result := validateArchetype character result in
  let result := validateAlignment character result in
  let result := validateSkills character result in
  let result := validateInventory character result in
  let result := validateBackstory character result in
  mret (mkResult (length (errors result) =? 0)%nat
                 (errors result) (warnings result)).

(** ** [CharacterExportSystem]
       ([app/modules/utils/character-export.ts]) *)

Definition exportCharacter (character : Character) (w : World)
  : outcome ExportResult * World :=
  match validateCharacter character with
  | Thrown e => (Thrown e, w)
  | Returned validationResult =>
      if negb (isValid validationResult)
      then (Returned (mkExportResult false None (Some (errors validationResult))), w)
      else
        let '(exportId, w) := uuidv4 w in
        let '(timestamp, w) := Date_now w in
        let '(sanitized, w) := sanitizeCharacterData character w in
        let exportData :=
          mkExport "1.1.0" exportId timestamp sanitized
            (mkMetadata
               (mkResult (isValid validationResult) (errors validationResult)
                         (warnings validationResult))
               "1.1.0" None) in
        (Returned (mkExportResult true (Some exportData) None), w)
  end.

Definition importCharacter (exportData : ExportFormat) (w : World)
  : outcome ImportResult * World :=
  if negb (String.eqb (version exportData) "1.1.0")
  then (Returned (mkImportResult false None (Some ["Incompatible export version"])), w)
  else
    let '(now, w) := Date_now w in
    if MAX_EXPORT_AGE <? now - timestamp exportData
    then (Returned (mkImportResult false None (Some ["Export data is too old"])), w)
    else
      let '(newId, w) := uuidv4 w in
      let importedCharacter := withId (Some newId) (character exportData) in
      match validateCharacter importedCharacter with
      | Thrown e => (Thrown e, w)
      | Returned validationResult =>
          if negb (isValid validationResult)
          then (Returned (mkImportResult false None
                            (Some (errors validationResult))), w)
          else (Returned (mkImportResult true (Some importedCharacter) None), w)
      end.

Definition createCharacterBackup (character : Character) (w : World)
  : outcome BackupResult * World :=
  match exportCharacter character w with
  | (Thrown e, w) => (Thrown e, w)
  | (Returned exportResult, w) =>
      if negb (export_success exportResult)
      then (Returned (mkBackupResult (export_success exportResult) None
                        (export_errors exportResult)), w)
      else
        match export_data exportResult with
        | Some (mkExport dataVersion dataExportId dataTimestamp dataCharacter
                         dataMetadata) =>
            (Returned
               (mkBackupResult true
                  (Some (mkExport dataVersion dataExportId dataTimestamp
                           dataCharacter
                           (mkMetadata (validationResult dataMetadata)
                                       (exportVersion dataMetadata)
                                       (Some "full"))))
                  None), w)
        | None =>
            (Thrown (TypeError
               "Cannot read properties of undefined (reading 'metadata')"), w)
        end
  end.


End Collaborators.

(** ** [CharacterManager] ([app/modules/characters.ts])

    The item [dnd-characters-v2] of the local storage holds the list of
    characters, written by [JSON.stringify] and read by [JSON.parse]: the
    storage is the list that is read back, or [None] before the first
    write. *)

Module CharacterManager.

Definition Storage : Type := option (list Character).

Definition getAllCharacters (st : Storage) : list Character :=
  match st with
  | Some characters => characters
  | None => []
  end.

(** [a === b] on ids. *)
Definition sameId (a b : option string) : bool :=
  match a, b with
  | Some x, Some y => String.eqb x y
  | None, None => true
  | _, _ => false
  end.

Definition getCharacterById (characterId : string) (st : Storage)
  : option Character :=
  find (fun c => sameId (id c) (Some characterId)) (getAllCharacters st).

(** [characters.findIndex(p)]: [None] is [-1]. *)
Fixpoint findIndex {A : Type} (p : A -> bool) (l : list A) : option nat :=
  match l with
  | [] => None
  | x :: rest => if p x then Some 0%nat else option_map S (findIndex p rest)
  end.

Definition saveCharacter (c : Character) (st : Storage) : Storage :=
  let characters := getAllCharacters st in
  match findIndex (fun c' => sameId (id c') (id c)) characters with
  | Some existingIndex => Some (<[existingIndex := c]> characters)
  | None => Some (characters ++ [c])
  end.

Record BackstoryData : Type := mkBackstoryData {
  bd_backstory : option string;
  bd_personality : option (list string);
  bd_ideals : option (list string);
  bd_bonds : option (list string);
  bd_flaws : option (list string)
}.

(** [supplied || character.traits.field]: the right operand is read only
    when the left one is [undefined], and reading a property of an
    absent [traits] raises a [TypeError]. *)
Definition traitOr (supplied : option (list string)) (t : option Traits)
    (field : Traits -> list string) (fieldName : string)
  : outcome (list string) :=
  match supplied with
  | Some l => Returned l
  | None =>
      match t with
      | Some t => Returned (field t)
      | None =>
          Thrown (TypeError ("Cannot read properties of undefined (reading '"
                             +:+ fieldName +:+ "')"))
      end
  end.

Definition withBackstory (b : option string) (c : Character) : Character :=
  mkCharacter (id c) (name c) (race c) (class c) (level c) (experience c)
    (status c) (abilityScores c) (hitPoints c) (armorClass c) (campaignId c)
    (inventory c) (spells c) b (traits c) (multiclass c)
    (archetypeFeatures c) (alignment c) (skills c) (exportedAt c).

Definition withTraits (t : option Traits) (c : Character) : Character :=
  mkCharacter (id c) (name c) (race c) (class c) (level c) (experience c)
    (status c) (abilityScores c) (hitPoints c) (armorClass c) (campaignId c)
    (inventory c) (spells c) (backstory c) t (multiclass c)
    (archetypeFeatures c) (alignment c) (skills c) (exportedAt c).

Definition updateCharacterBackground
    (characterId : string) (backstoryData : BackstoryData) (st : Storage)
  : outcome Character * Storage :=
  match getCharacterById characterId st with
  | None => (Thrown (Error "Character not found"), st)
  | Some character =>
      let character :=
        withBackstory (orStr (bd_backstory backstoryData) (backstory character))
                      character in
      let newTraits :=
        p ← traitOr (bd_personality backstoryData) (traits character)
                    personality "personality";
        i ← traitOr (bd_ideals backstoryData) (traits character)
                    ideals "ideals";
        b ← traitOr (bd_bonds backstoryData) (traits character)
                    bonds "bonds";
        f ← traitOr (bd_flaws backstoryData) (traits character)
                    flaws "flaws";
        mret (mkTraits p i b f) in
      match newTraits with
      | Thrown e => (Thrown e, st)
      | Returned t =>
          let character := withTraits (Some t) character in
          (Returned character, saveCharacter character st)
      end
  end.

Definition getCharactersByCampaign (campaign : string) (st : Storage)
  : list Character :=
  filter (fun c => sameId (campaignId c) (Some campaign)) (getAllCharacters st).

Definition withSpells (l : option (list Spell)) (c : Character) : Character :=
  mkCharacter (id c) (name c) (race c) (class c) (level c) (experience c)
    (status c) (abilityScores c) (hitPoints c) (armorClass c) (campaignId c)
    (inventory c) l (backstory c) (traits c) (multiclass c)
    (archetypeFeatures c) (alignment c) (skills c) (exportedAt c).

Definition withLevel (n : Z) (c : Character) : Character :=
  mkCharacter (id c) (name c) (race c) (class c) n (experience c)
    (status c) (abilityScores c) (hitPoints c) (armorClass c) (campaignId c)
    (inventory c) (spells c) (backstory c) (traits c) (multiclass c)
    (archetypeFeatures c) (alignment c) (skills c) (exportedAt c).

Definition withHitPoints (n : Z) (c : Character) : Character :=
  mkCharacter (id c) (name c) (race c) (class c) (level c) (experience c)
    (status c) (abilityScores c) n (armorClass c) (campaignId c)
    (inventory c) (spells c) (backstory c) (traits c) (multiclass c)
    (archetypeFeatures c) (alignment c) (skills c) (exportedAt c).

Definition withExperience (n : Z) (c : Character) : Character :=
  mkCharacter (id c) (name c) (race c) (class c) (level c) n
    (status c) (abilityScores c) (hitPoints c) (armorClass c) (campaignId c)
    (inventory c) (spells c) (backstory c) (traits c) (multiclass c)
    (archetypeFeatures c) (alignment c) (skills c) (exportedAt c).

(** [updateSpellProgression]: the new spells of the level are appended. *)
Definition updateSpellProgression (c : Character) : Character :=
  let newSpells := SpellSystem.getNewSpellsForLevel c in
  withSpells (Some (orArr (spells c) [] ++ newSpells)) c.

Definition calculateExperience (c : Character) : Z :=
  let baseXP := 300 in
  level c * baseXP.

(** [this.calculateHitPointIncrease(character)], as called by
[levelUpCharacter].  The class declares [createCharacter],
[baseCharacterStructure], [levelUpCharacter],
[offerAbilityScoreImprovement], [updateSpellProgression],
[calculateExperience], [exportCharacter], [importCharacter],
[updateCharacterBackground], [saveCharacter], [getAllCharacters],
[getCharacterById] and [getCharactersByCampaign], extends no class and
has no member [calculateHitPointIncrease]: the property read yields
[undefined], and calling it raises a [TypeError]. *)
Definition calculateHitPointIncrease (c : Character) : outcome Z :=
  Thrown (TypeError "this.calculateHitPointIncrease is not a function").

(** The envelope of [CharacterManager.exportCharacter]. *)
Record CharacterExportMetadata : Type := mkCharacterExportMetadata {
  cem_exportedAt : string;
  cem_exportVersion : string
}.

Record CharacterExport : Type := mkCharacterExport {
  ce_version : string;
  ce_character : Character;
  ce_metadata : CharacterExportMetadata
}.

Section WithCollaborators.

(** [AbilityScoreUtils] is imported from a module that is not among the
sources, and [Date.prototype.toISOString] is the formatting of the
run-time library: the manager is defined for any of them. *)
Variable canImproveAbilityScore : Character -> string -> bool.
Variable improveAbilityScore : Character -> string -> Character.
Variable toISOString : Z -> string.

Definition offerAbilityScoreImprovement (c : Character) : Character :=
  let improvableAbilities :=
    filter (canImproveAbilityScore c)
           (map fst (abilityEntries (abilityScores c))) in
  match improvableAbilities with
  | abilityToImprove :: _ => improveAbilityScore c abilityToImprove
  | [] => c
  end.

Definition levelUpCharacter (characterId : string) (st : Storage)
  : outcome Character * Storage :=
  match getCharacterById characterId st with
  | None => (Thrown (Error "Character not found"), st)
  | Some character =>
      let character := withLevel (level character + 1) character in
      let updated :=
        increase ← calculateHitPointIncrease character;
        let character := withHitPoints (hitPoints character + increase) character in
        let character :=
          if Z.rem (level character) 4 =? 0
          then offerAbilityScoreImprovement character
          else character in
        let character := updateSpellProgression character in
        let character := withExperience (calculateExperience character) character in
        mret character in
      match updated with
      | Thrown e => (Thrown e, st)
      | Returned character => (Returned character, saveCharacter character st)
      end
  end.

(** [CharacterManager.exportCharacter]: [new Date()] reads the clock. *)
Definition exportCharacter (characterId : string) (st : Storage) (w : World)
  : outcome CharacterExport * World :=
  match getCharacterById characterId st with
  | None => (Thrown (Error "Character not found"), w)
  | Some character =>
      let '(now, w) := Date_now w in
      (Returned (mkCharacterExport "1.0.0" character
                   (mkCharacterExportMetadata (toISOString now) "1.0.0")), w)
  end.

End WithCollaborators.

Definition importCharacter (exportData : CharacterExport) (st : Storage) (w : World)
  : outcome Character * Storage * World :=
  if negb (String.eqb (ce_version exportData) "1.0.0")
  then (Thrown (Error "Incompatible export version"), st, w)
  else
    let '(newId, w) := uuidv4 w in
    let importedCharacter := withId (Some newId) (ce_character exportData) in
    (Returned importedCharacter, saveCharacter importedCharacter st, w).

End CharacterManager.

(** * Vocabulary of the properties *)

(** The six abilities, their property names and their scores. *)
Inductive Ability : Type :=
| Strength | Dexterity | Constitution | Intelligence | Wisdom | Charisma.

Definition abilityKey (a : Ability) : string :=
  match a with
  | Strength => "strength"
  | Dexterity => "dexterity"
  | Constitution => "constitution"
  | Intelligence => "intelligence"
  | Wisdom => "wisdom"
  | Charisma => "charisma"
  end.

Definition abilityScore (a : Ability) (s : AbilityScores) : Z :=
  match a with
  | Strength => strength s
  | Dexterity => dexterity s
  | Constitution => constitution s
  | Intelligence => intelligence s
  | Wisdom => wisdom s
  | Charisma => charisma s
  end.

(** The hit die of a class as the specification words it: the entry of
    the table, and 8 for a class that the table does not list. *)
Definition hitDie (cls : string) : Z :=
  default 8 (tableGet MulticlassSystem.hitDiceByClass cls).

(** The number of spells that can be prepared, as the specification
    words it. *)
Definition preparableCount (character : Character) : Z :=
  Z.max 1 (level character `div` 2
           + (wisdom (abilityScores character) - 10) `div` 2).

(** The checks of the pipeline that do not throw, in the order of
    [validateCharacter], on the empty result; and the last statement of
    [validateCharacter], which sets [isValid]. *)
Definition runChecks
    (validateArchetypeSelection : Character -> option ArchetypeFeature -> DelegateResult)
    (alignmentDefinitions : list (string * Alignment))
    (character : Character) (result : ValidationResult) : ValidationResult :=
  validateBackstory character
    (validateInventory character
       (validateSkills character
          (validateAlignment alignmentDefinitions character
             (validateArchetype validateArchetypeSelection character result)))).

Definition firstChecks (character : Character) : ValidationResult :=
  validateClassRequirements character
    (validateAbilityScores character
       (validateBasicInfo character (mkResult true [] []))).

Definition conclude (result : ValidationResult) : ValidationResult :=
  mkResult (length (errors result) =? 0)%nat (errors result) (warnings result).

(** [emits f PE PW]: the check [f] keeps the messages of the result it is
    given and appends errors that satisfy [PE] and warnings that satisfy
    [PW]. *)
Definition emits (f : ValidationResult -> ValidationResult)
    (PE PW : string -> Prop) : Prop :=
  forall r, exists es ws,
    errors (f r) = errors r ++ es
    /\ warnings (f r) = warnings r ++ ws
    /\ Forall PE es /\ Forall PW ws.

(** The errors that the archetype delegate returns for a character. *)
Definition archetypeErrors
    (validateArchetypeSelection : Character -> option ArchetypeFeature -> DelegateResult)
    (character : Character) : list string :=
  match archetypeFeatures character with
  | Some features =>
      dr_errors (validateArchetypeSelection character (head features))
  | None => []
  end.

(** A score is out of range when it is below 3 or above 20. *)
Definition outOfRange (score : Z) : Prop := score < 3 \/ 20 < score.

(** The range message of an ability. *)
Definition rangeMessage (a : Ability) : string :=
  scoreRangeMessage (abilityKey a).

(** A message that is not the range message of any ability. *)
Definition notRange (m : string) : Prop := forall a, m <> rangeMessage a.

(** A message that is the range message of an ability whose score is out
    of range, or not a range message at all. *)
Definition rangeOrOther (character : Character) (m : string) : Prop :=
  (exists a, m = rangeMessage a
             /\ outOfRange (abilityScore a (abilityScores character)))
  \/ notRange m.

Definition anyMessage (m : string) : Prop := True.

(** A message names an ability when the capitalised name of the ability
    occurs in it. *)
Fixpoint occursIn (pat s : string) : bool :=
  String.prefix pat s
  || match s with
     | EmptyString => false
     | String _ rest => occursIn pat rest
     end.

Definition namesAbility (a : Ability) (msg : string) : bool :=
  occursIn (capitalize (abilityKey a)) msg.

(** The sum of the skill levels and the total weight of an inventory. *)
Definition skillTotal (sk : list (string * Z)) : Z :=
  foldr (fun entry acc => snd entry + acc) 0 sk.

Definition weightTotal (inv : list CharacterItem) : Z :=
  foldr (fun item acc => default 0 (weight item) + acc) 0 inv.

Definition skillsNearMaximum : string :=
  "Skill points are near maximum allocation".

Definition inventoryNearCapacity : string :=
  "Inventory is near maximum carrying capacity".

Section Statements.

Variable validateArchetypeSelection :
  Character -> option ArchetypeFeature -> DelegateResult.
Variable alignmentDefinitions : list (string * Alignment).

(** The statement that, for a character and an ability, the validation
    reports an error that names the ability when its score is out of
    range, and reports no error that names the ability when its score
    is in range. *)
Definition abilityErrorsFollowRange (character : Character) (a : Ability) : Prop :=
  (outOfRange (abilityScore a (abilityScores character)) ->
   exists r m,
     validateCharacter validateArchetypeSelection alignmentDefinitions character
     = Returned r
     /\ In m (errors r) /\ namesAbility a m = true)
  /\ (~ outOfRange (abilityScore a (abilityScores character)) ->
      forall r m,
        validateCharacter validateArchetypeSelection alignmentDefinitions character
        = Returned r ->
        In m (errors r) -> namesAbility a m = false).

(** The statement that the validation warns as soon as the skill points
    reach 80% of the budget [level * 2], and as soon as the weight of
    the inventory reaches 80% of the capacity [15 * strength]. *)
Definition warnsFromFourFifths (character : Character) : Prop :=
  (forall sk,
     skills character = Some sk ->
     4 * (level character * 2) <= 5 * skillTotal sk ->
     exists r,
       validateCharacter validateArchetypeSelection alignmentDefinitions character
       = Returned r
       /\ In skillsNearMaximum (warnings r))
  /\ (forall inv,
        inventory character = Some inv ->
        4 * (15 * strength (abilityScores character)) <= 5 * weightTotal inv ->
        exists r,
          validateCharacter validateArchetypeSelection alignmentDefinitions character
          = Returned r
          /\ In inventoryNearCapacity (warnings r)).

(** The statement that a character accepted by the validation, once
    exported in the world [w] and imported in the world [w2] within the
    age window, comes back equal to the original except for its id. *)
Definition roundTripKeepsAllButId (character : Character) (w w2 : World) : Prop :=
  forall r,
    validateCharacter validateArchetypeSelection alignmentDefinitions character
    = Returned r ->
    isValid r = true ->
    exists d w1,
      exportCharacter validateArchetypeSelection alignmentDefinitions character w
      = (Returned (mkExportResult true (Some d) None), w1)
      /\ (clock w2 (clockReads w2) - timestamp d <= MAX_EXPORT_AGE ->
          exists imported w3,
            importCharacter validateArchetypeSelection alignmentDefinitions d w2
            = (Returned (mkImportResult true (Some imported) None), w3)
            /\ imported = withId (id imported) character).

End Statements.

(** The character that an import returns for the original [c]: the id is
    [newId], [status] and [campaignId] are absent, [exportedAt] is the
    time of the export, and every other property is the one of [c]. *)
Definition importedFrom (c : Character) (newId : string) (exportTime : Z)
  : Character :=
  mkCharacter (Some newId) (name c) (race c) (class c) (level c) (experience c)
    None (abilityScores c) (hitPoints c) (armorClass c) None
    (inventory c) (spells c) (backstory c) (traits c) (multiclass c)
    (archetypeFeatures c) (alignment c) (skills c) (Some exportTime).

(** The game data of a character: the character without [id], [status],
    [campaignId] and [exportedAt]. *)
Definition gameData (c : Character) : Character :=
  mkCharacter None (name c) (race c) (class c) (level c) (experience c)
    None (abilityScores c) (hitPoints c) (armorClass c) None
    (inventory c) (spells c) (backstory c) (traits c) (multiclass c)
    (archetypeFeatures c) (alignment c) (skills c) None.

(** An archetype delegate that looks at the game data only. *)
Definition readsGameData
    (validateArchetypeSelection : Character -> option ArchetypeFeature -> DelegateResult)
  : Prop :=
  forall c feature,
    validateArchetypeSelection c feature
    = validateArchetypeSelection (gameData c) feature.

(** The character after a background update, as the code computes it:
    the backstory is replaced when a non-empty one is supplied, a trait
    list is replaced when one is supplied, and every other property is
    the one of [c]. *)
Definition withBackground
    (c : Character) (t : Traits) (data : CharacterManager.BackstoryData)
  : Character :=
  mkCharacter (id c) (name c) (race c) (class c) (level c) (experience c)
    (status c) (abilityScores c) (hitPoints c) (armorClass c) (campaignId c)
    (inventory c) (spells c)
    (match CharacterManager.bd_backstory data with
     | Some text => if decide (text = "") then backstory c else Some text
     | None => backstory c
     end)
    (Some (mkTraits
             (default (personality t) (CharacterManager.bd_personality data))
             (default (ideals t) (CharacterManager.bd_ideals data))
             (default (bonds t) (CharacterManager.bd_bonds data))
             (default (flaws t) (CharacterManager.bd_flaws data))))
    (multiclass c) (archetypeFeatures c) (alignment c) (skills c)
    (exportedAt c).

(** The statement that the update of a stored character returns and
    stores a character in which every supplied field has the supplied
    value. *)
Definition replacesEverySuppliedField
    (characterId : string) (data : CharacterManager.BackstoryData)
    (st : CharacterManager.Storage) : Prop :=
  forall c,
    CharacterManager.getCharacterById characterId st = Some c ->
    exists c',
      CharacterManager.updateCharacterBackground characterId data st
      = (Returned c', CharacterManager.saveCharacter c' st)
      /\ (forall text,
            CharacterManager.bd_backstory data = Some text ->
            backstory c' = Some text)
      /\ (forall l t',
            CharacterManager.bd_personality data = Some l ->
            traits c' = Some t' -> personality t' = l)
      /\ (forall l t',
            CharacterManager.bd_ideals data = Some l ->
            traits c' = Some t' -> ideals t' = l)
      /\ (forall l t',
            CharacterManager.bd_bonds data = Some l ->
            traits c' = Some t' -> bonds t' = l)
      /\ (forall l t',
            CharacterManager.bd_flaws data = Some l ->
            traits c' = Some t' -> flaws t' = l).

(** ** The conditions that the validation checks

    One condition per check of the pipeline, worded on the character. *)








(** The minimum scores of [classRequirements], by class and ability. *)
Definition classMinimumTable : list (string * Ability * Z) :=
  [ ("Fighter", Strength, 13); ("Fighter", Constitution, 12);
    ("Wizard", Intelligence, 14); ("Wizard", Dexterity, 10);
    ("Rogue", Dexterity, 13); ("Rogue", Intelligence, 10);
    ("Cleric", Wisdom, 13); ("Cleric", Constitution, 10) ].

Definition missingDelegate : JsError :=
  TypeError "MulticlassSystem.validateMulticlassing is not a function".

Definition missingHitPointIncrease : JsError :=
  TypeError "this.calculateHitPointIncrease is not a function".

(** * Sample data *)

Definition sampleScores : AbilityScores := mkAbilityScores 14 12 14 10 14 8.

(** A fighter of level 5 that passes the validation. *)
Definition sampleFighter : Character :=
  mkCharacter (Some "c-1") "Aria" "Human" "Fighter" 5 1500 (Some ACTIVE)
    sampleScores 44 16 (Some "campaign-1")
    (Some [mkItem "i-1" "Rope" (Some 10)])
    (Some []) (Some "Raised in the north.")
    (Some (mkTraits ["Brave"] ["Honor"] ["Family"] ["Stubborn"]))
    None None None None None.

(** A wizard of level 4, a level at which wizards learn spells. *)
Definition sampleWizard : Character :=
  mkCharacter (Some "c-2") "Brin" "Elf" "Wizard" 4 1200 (Some ACTIVE)
    (mkAbilityScores 8 14 12 16 13 10) 20 12 None (Some [])
    (Some [ SpellSystem.spell "Magic Missile" 1 "Evocation";
            SpellSystem.spell "Shield" 1 "Abjuration";
            SpellSystem.spell "Mage Armor" 1 "Abjuration";
            SpellSystem.spell "Misty Step" 2 "Conjuration" ])
    None None None None None None None.

(** A store that holds the four spells of [sampleWizard] at references 1
    to 4 and the array of the character at reference 5. *)
Definition sampleStore : gmap SpellSystem.loc SpellSystem.cell :=
  <[5%positive := SpellSystem.ArrayCell [1; 2; 3; 4]%positive]>
  (<[4%positive := SpellSystem.SpellCell
                     (SpellSystem.spell "Misty Step" 2 "Conjuration")]>
  (<[3%positive := SpellSystem.SpellCell
                     (SpellSystem.spell "Mage Armor" 1 "Abjuration")]>
  (<[2%positive := SpellSystem.SpellCell
                     (SpellSystem.spell "Shield" 1 "Abjuration")]>
  (<[1%positive := SpellSystem.SpellCell
                     (SpellSystem.spell "Magic Missile" 1 "Evocation")]> ∅)))).

(** Modelled from the spec: [CharacterArchetypeSystem] is not among the
    sources, and the specification only says that the archetype check is
    delegated; the sample delegate accepts every selection. *)
Definition sampleArchetypeCheck
  : Character -> option ArchetypeFeature -> DelegateResult :=
  fun _ _ => mkDelegate true [].

(** Modelled from the spec: [AlignmentSystem.alignmentDefinitions] is not
    among the sources; the specification speaks of nine canonical pairs
    of a moral and an ethical component. *)
Definition sampleAlignmentDefinitions : list (string * Alignment) :=
  [ ("Lawful Good", mkAlignment "Good" "Lawful");
    ("Neutral Good", mkAlignment "Good" "Neutral");
    ("Chaotic Good", mkAlignment "Good" "Chaotic");
    ("Lawful Neutral", mkAlignment "Neutral" "Lawful");
    ("True Neutral", mkAlignment "Neutral" "Neutral");
    ("Chaotic Neutral", mkAlignment "Neutral" "Chaotic");
    ("Lawful Evil", mkAlignment "Evil" "Lawful");
    ("Neutral Evil", mkAlignment "Evil" "Neutral");
    ("Chaotic Evil", mkAlignment "Evil" "Chaotic") ].

(** A world whose clock starts at 1700000000000 ms and advances by one
    millisecond per reading. *)
Definition sampleIds : nat -> string :=
  fun n => nth n ["uuid-0"; "uuid-1"; "uuid-2"; "uuid-3"] "uuid-4".

Definition sampleWorld : World :=
  mkWorld (fun n => 1700000000000 + Z.of_nat n) 0 sampleIds 0.

(** The same generator one day later. *)
Definition nextDay : World :=
  mkWorld (fun n => 1700086400000 + Z.of_nat n) 0 sampleIds 1.

(** An envelope of another version, and an envelope of the year before. *)
Definition foreignEnvelope : ExportFormat :=
  mkExport "1.0.0" "uuid-x" 1700000000000 (gameData sampleFighter)
    (mkMetadata (mkResult true [] []) "1.0.0" None).

Definition staleEnvelope : ExportFormat :=
  mkExport "1.1.0" "uuid-y" 1600000000000 (gameData sampleFighter)
    (mkMetadata (mkResult true [] []) "1.1.0" None).

(** A storage that holds [sampleFighter] and [sampleWizard]. *)
Definition sampleStorage : CharacterManager.Storage :=
  Some [sampleFighter; sampleWizard].

(** An update that supplies an empty backstory and nothing else, and an
    update that supplies a backstory and the list of bonds. *)
Definition clearBackstory : CharacterManager.BackstoryData :=
  CharacterManager.mkBackstoryData (Some "") None None None None.

Definition newBackground : CharacterManager.BackstoryData :=
  CharacterManager.mkBackstoryData (Some "Left home at sixteen.") None None
    (Some ["The company"]) None.

(** A fighter whose strength 10 is in range and below the minimum 13 of
    the class. *)
Definition weakFighter : Character :=
  mkCharacter (Some "c-3") "Cole" "Human" "Fighter" 3 900 (Some ACTIVE)
    (mkAbilityScores 10 12 14 10 12 8) 28 15 None (Some [])
    (Some []) None None None None None None None.

(** A fighter with one multiclass entry. *)
Definition multiclassedFighter : Character :=
  mkCharacter (Some "c-4") "Dara" "Human" "Fighter" 3 900 (Some ACTIVE)
    sampleScores 28 15 None (Some []) (Some []) None None
    (Some [mkMulticlass "Wizard" 1]) None None None None.

(** A character of level 15 with 10 more levels in a second class. *)
Definition overLevelled : Character :=
  mkCharacter (Some "c-5") "Edda" "Human" "Fighter" 15 4500 (Some ACTIVE)
    sampleScores 120 18 None (Some []) (Some []) None None
    (Some [mkMulticlass "Rogue" 10]) None None None None.

(** A character of level 5 and strength 10 whose skill points are 8 of
    10 and whose inventory weighs 120 of 150. *)
Definition atFourFifths : Character :=
  mkCharacter (Some "c-6") "Finn" "Human" "Rogue" 5 1500 (Some ACTIVE)
    (mkAbilityScores 10 14 12 12 10 10) 30 14 None
    (Some [mkItem "i-1" "Anvil" (Some 120)])
    (Some []) None None None None None (Some [("stealth", 8)]) None.

(** A character of level 5 and strength 10 whose skill points are 9 of
    10 and whose inventory weighs 121 of 150. *)
Definition aboveFourFifths : Character :=
  mkCharacter (Some "c-7") "Gwen" "Human" "Rogue" 5 1500 (Some ACTIVE)
    (mkAbilityScores 10 14 12 12 10 10) 30 14 None
    (Some [mkItem "i-1" "Anvil" (Some 121)])
    (Some []) None None None None None (Some [("stealth", 9)]) None.

(** A fighter whose strength 25 is out of range. *)
Definition giantFighter : Character :=
  mkCharacter (Some "c-8") "Hale" "Human" "Fighter" 3 900 (Some ACTIVE)
    (mkAbilityScores 25 12 14 10 12 8) 28 15 None (Some [])
    (Some []) None None None None None None None.

(** A fighter of strength 10 who carries 200 of 150 and has spent 12
    skill points of 10. *)
Definition overloaded : Character :=
  mkCharacter (Some "c-9") "Iver" "Human" "Fighter" 5 1500 (Some ACTIVE)
    (mkAbilityScores 10 12 14 10 12 8) 40 15 None
    (Some [mkItem "i-1" "Anvil" (Some 120); mkItem "i-2" "Chest" (Some 80)])
    (Some []) None None None None None (Some [("athletics", 12)]) None.

(** An ability-score collaborator that improves nothing, and a clock
    formatting that prints the number of milliseconds. *)
Definition neverImprovable : Character -> string -> bool := fun _ _ => false.

Definition noImprovement : Character -> string -> Character := fun c _ => c.

Definition sampleISO : Z -> string := fun t => pretty t.

(** A rogue who carries four items under two ids. *)
Definition duplicateCarrier : Character :=
  mkCharacter (Some "c-10") "Joss" "Human" "Rogue" 2 600 (Some ACTIVE)
    (mkAbilityScores 10 14 12 12 10 10) 12 13 None
    (Some [ mkItem "i-1" "Rope" (Some 10); mkItem "i-2" "Torch" (Some 1);
            mkItem "i-1" "Rope" (Some 10); mkItem "i-1" "Hook" (Some 2) ])
    None None None None None None None None.



(** [sampleFighter] with negative hit points and experience, no spells,
    another status and neither id nor campaign. *)
Definition woundedFighter : Character :=
  mkCharacter None "Aria" "Human" "Fighter" 5 (-40) (Some DECEASED)
    sampleScores (-7) 0 None
    (Some [mkItem "i-1" "Rope" (Some 10)])
    None (Some "Raised in the north.")
    (Some (mkTraits ["Brave"] ["Honor"] ["Family"] ["Stubborn"]))
    None None None None None.

(** * Properties *)

(** ** Arithmetic of the embedding *)

Lemma floorHalf_div (n : Z) : floorHalf n = n `div` 2.
Proof.
  unfold floorHalf, mathFloor. cbn. by rewrite Z.mul_1_r.
Qed.

Lemma gtFourFifths_spec (a b : Z) : gtFourFifths a b = true <-> 4 * b < 5 * a.
Proof.
  unfold gtFourFifths, Qle_bool. cbn.
  rewrite negb_true_iff, Z.leb_gt. lia.
Qed.

Lemma includesNum_In (arr : list Z) (x : Z) : includesNum arr x = true <-> In x arr.
Proof.
  unfold includesNum. rewrite existsb_exists. split.
  - intros (y & Hy & Heq). apply Z.eqb_eq in Heq. by subst.
  - intros H. exists x. split; [done | apply Z.eqb_refl].
Qed.

Lemma toIntegerOrInfinity_Z (n : Z) : toIntegerOrInfinity (inject_Z n) = n.
Proof.
  unfold toIntegerOrInfinity.
  destruct (Qle_bool 0 (inject_Z n)); [apply Qfloor_Z | apply Qceiling_Z].
Qed.

Lemma slice0_firstn {A : Type} (arr : list A) (n : Z) :
  0 <= n -> slice0 arr (inject_Z n) = firstn (Z.to_nat n) arr.
Proof.
  intros Hn. unfold slice0. rewrite toIntegerOrInfinity_Z.
  destruct (Z.ltb_spec n 0) as [? | _]; [lia |].
  destruct (Z.min_spec n (Z.of_nat (length arr))) as [[? ->] | [? ->]]; [done |].
  rewrite Nat2Z.id, firstn_all.
  symmetry. apply firstn_all2. lia.
Qed.

(** ** Hit points gained by multiclassing *)

Lemma hitDice_or_default (cls : string) :
  orNum (tableGet MulticlassSystem.hitDiceByClass cls) 8 = hitDie cls.
Proof.
  unfold hitDie. cbn [tableGet MulticlassSystem.hitDiceByClass].
  repeat (destruct (String.eqb cls _); [reflexivity |]).
  reflexivity.
Qed.

(** C4: [calculateMulticlassHitPoints character newClass] is
    [max 1 (floor (hitDie newClass / 2) + floor ((constitution - 10) / 2))],
    where [hitDie] is the table entry of the class and 8 for a class that
    the table does not list; the result is a function of the class and
    the constitution, it is at least 1, and for Fighter (hit die 10) with
    constitution 14 it is 7. *)
Theorem calculateMulticlassHitPoints_formula
    (character : Character) (newClass : string) :
  MulticlassSystem.calculateMulticlassHitPoints character newClass
  = Z.max 1 (hitDie newClass `div` 2
             + (constitution (abilityScores character) - 10) `div` 2)
  /\ 1 <= MulticlassSystem.calculateMulticlassHitPoints character newClass
  /\ (tableGet MulticlassSystem.hitDiceByClass newClass = None ->
      hitDie newClass = 8)
  /\ hitDie "Fighter" = 10
  /\ (constitution (abilityScores character) = 14 ->
      MulticlassSystem.calculateMulticlassHitPoints character "Fighter" = 7).
Proof.
  assert (Heq : forall cls,
    MulticlassSystem.calculateMulticlassHitPoints character cls
    = Z.max 1 (hitDie cls `div` 2
               + (constitution (abilityScores character) - 10) `div` 2)).
  { intros cls. unfold MulticlassSystem.calculateMulticlassHitPoints.
    by rewrite hitDice_or_default, !floorHalf_div. }
  split; [apply Heq |].
  split; [rewrite Heq; lia |].
  split; [by intros Hnone; unfold hitDie; rewrite Hnone |].
  split; [reflexivity |].
  intros Hcon. rewrite Heq, Hcon. reflexivity.
Qed.

Lemma calculateMulticlassHitPoints_formula_witness :
  constitution (abilityScores sampleFighter) = 14
  /\ MulticlassSystem.calculateMulticlassHitPoints sampleFighter "Fighter" = 7.
Proof.
  split; [reflexivity |].
  apply (calculateMulticlassHitPoints_formula sampleFighter "Fighter").
  reflexivity.
Defined.

(** ** Spells learned at a level *)

Lemma spellLearningRules_cap (cls : string) (rules : SpellSystem.SpellRules) :
  tableGet SpellSystem.spellLearningRules cls = Some rules ->
  0 <= SpellSystem.maxSpellsPerLevel rules.
Proof.
  cbn [tableGet SpellSystem.spellLearningRules].
  repeat (destruct (String.eqb cls _); [intros [= <-]; cbn; lia |]).
  discriminate.
Qed.

(** C6: [getNewSpellsForLevel] returns the empty list when the class of
    the character has no entry in the table of spell-learning rules, and
    when the level of the character is not one of the spell-learning
    levels of the class; otherwise it returns the list stored under the
    key [floor (level / 2)] of [spellListByLevel] (no list when the table
    has no such key), cut to the first [maxSpellsPerLevel] spells. *)
Theorem getNewSpellsForLevel_spec (character : Character) :
  (tableGet SpellSystem.spellLearningRules (class character) = None ->
   SpellSystem.getNewSpellsForLevel character = [])
  /\ (forall rules,
        tableGet SpellSystem.spellLearningRules (class character) = Some rules ->
        ~ In (level character) (SpellSystem.spellLearningLevels rules) ->
        SpellSystem.getNewSpellsForLevel character = [])
  /\ (forall rules,
        tableGet SpellSystem.spellLearningRules (class character) = Some rules ->
        In (level character) (SpellSystem.spellLearningLevels rules) ->
        SpellSystem.getNewSpellsForLevel character
        = firstn (Z.to_nat (SpellSystem.maxSpellsPerLevel rules))
            (default [] (SpellSystem.levelGet
                           (SpellSystem.spellListByLevel rules)
                           (level character `div` 2)))).
Proof.
  unfold SpellSystem.getNewSpellsForLevel.
  split; [by intros -> |].
  split.
  - intros rules Hrules Hnot. rewrite Hrules.
    destruct (includesNum _ _) eqn:Hinc; [| reflexivity].
    apply includesNum_In in Hinc. contradiction.
  - intros rules Hrules Hin. rewrite Hrules.
    apply includesNum_In in Hin. rewrite Hin. cbn [negb].
    rewrite floorHalf_div, slice0_firstn
      by (eapply spellLearningRules_cap; eassumption).
    by destruct (SpellSystem.levelGet _ _).
Qed.

Lemma getNewSpellsForLevel_spec_witness :
  In (level sampleWizard) [1; 2; 4; 8; 12; 16; 19]
  /\ SpellSystem.getNewSpellsForLevel sampleWizard
     = [ SpellSystem.spell "Misty Step" 2 "Conjuration";
         SpellSystem.spell "Scorching Ray" 2 "Evocation" ].
Proof.
  assert (Hin : In (level sampleWizard) [1; 2; 4; 8; 12; 16; 19])
    by (cbn; tauto).
  split; [exact Hin |].
  destruct (getNewSpellsForLevel_spec sampleWizard) as (_ & _ & Hlearn).
  rewrite (Hlearn _ eq_refl Hin). reflexivity.
Defined.

(** ** Daily preparation of spells *)

Lemma slice0_take {A : Type} (arr : list A) (q : Q) :
  0 <= toIntegerOrInfinity q ->
  slice0 arr q = firstn (Z.to_nat (toIntegerOrInfinity q)) arr.
Proof.
  intros Hq. unfold slice0.
  destruct (Z.ltb_spec (toIntegerOrInfinity q) 0) as [? | _]; [lia |].
  destruct (Z.min_spec (toIntegerOrInfinity q) (Z.of_nat (length arr)))
    as [[? ->] | [? ->]]; [done |].
  rewrite Nat2Z.id, firstn_all.
  symmetry. apply firstn_all2. lia.
Qed.

(** The count that the code computes, [Math.max(1, level / 2 + modifier)]
    cut to an integer by [slice], is the count of the specification. *)
Lemma preparable_count (character : Character) :
  toIntegerOrInfinity
    (Qmax 1 (inject_Z (level character) / 2
             + inject_Z (floorHalf (wisdom (abilityScores character) - 10))))
  = preparableCount character.
Proof.
  unfold preparableCount. rewrite floorHalf_div.
  generalize (level character) as lvl.
  generalize ((wisdom (abilityScores character) - 10) `div` 2) as wm.
  intros wm lvl.
  unfold Qmax, GenericMinMax.gmax.
  unfold Qcompare, Qdiv, Qplus, Qmult, Qinv, inject_Z. cbn [Qnum Qden].
  change (Z.pos (1 * 2 * 1)) with 2.
  change (Z.pos (1 * 2)) with 2.
  change (1 * 2 * 1)%positive with 2%positive.
  rewrite !Z.mul_1_r, Z.mul_1_l.
  assert (Hdiv : (lvl + wm * 2) `div` 2 = lvl `div` 2 + wm)
    by (apply Z.div_add; lia).
  destruct (Z.compare_spec 2 (lvl + wm * 2)) as [Heq | Hlt | Hgt].
  - change (toIntegerOrInfinity 1) with 1.
    assert ((lvl + wm * 2) `div` 2 = 1) by (rewrite <- Heq; reflexivity).
    lia.
  - unfold toIntegerOrInfinity, Qle_bool, Qfloor. cbn [Qnum Qden].
    destruct (Z.leb_spec (0 * 2) ((lvl + wm * 2) * 1)) as [_ | ?]; [| lia].
    change (Z.pos 2) with 2. rewrite Hdiv.
    assert (1 <= (lvl + wm * 2) `div` 2)
      by (apply Z.div_le_lower_bound; lia).
    lia.
  - change (toIntegerOrInfinity 1) with 1.
    assert ((lvl + wm * 2) `div` 2 <= 0 \/ (lvl + wm * 2) `div` 2 = 0 \/ True)
      by tauto.
    assert ((lvl + wm * 2) `div` 2 < 1)
      by (apply Z.div_lt_upper_bound; lia).
    lia.
Qed.

Lemma alloc_fresh (v : SpellSystem.cell) (h : gmap SpellSystem.loc SpellSystem.cell) :
  h !! (SpellSystem.alloc v h).1 = None.
Proof.
  unfold SpellSystem.alloc. cbn.
  apply not_elem_of_dom, is_fresh.
Qed.

Lemma alloc_lookup (v : SpellSystem.cell) (h : gmap SpellSystem.loc SpellSystem.cell) :
  (SpellSystem.alloc v h).2 !! (SpellSystem.alloc v h).1 = Some v.
Proof.
  unfold SpellSystem.alloc. cbn. apply lookup_insert_eq.
Qed.

Lemma alloc_subseteq (v : SpellSystem.cell) (h : gmap SpellSystem.loc SpellSystem.cell) :
  h ⊆ (SpellSystem.alloc v h).2.
Proof.
  unfold SpellSystem.alloc. cbn.
  apply insert_subseteq, not_elem_of_dom, is_fresh.
Qed.

Lemma readCells_weaken (elems : list SpellSystem.loc)
    (h h' : gmap SpellSystem.loc SpellSystem.cell) (l : list Spell) :
  h ⊆ h' ->
  SpellSystem.readCells elems h = Some l ->
  SpellSystem.readCells elems h' = Some l.
Proof.
  intros Hsub. revert l.
  induction elems as [| p rest IH]; intros l; cbn; [done |].
  destruct (h !! p) as [[s | ?] |] eqn:Hp; try discriminate.
  destruct (SpellSystem.readCells rest h) as [ss |] eqn:Hrest; [| discriminate].
  intros [= <-].
  rewrite (lookup_weaken _ _ _ _ Hp Hsub), (IH ss eq_refl). reflexivity.
Qed.

Lemma readSpells_weaken (arr : SpellSystem.loc)
    (h h' : gmap SpellSystem.loc SpellSystem.cell) (l : list Spell) :
  h ⊆ h' ->
  SpellSystem.readSpells arr h = Some l ->
  SpellSystem.readSpells arr h' = Some l.
Proof.
  intros Hsub. unfold SpellSystem.readSpells.
  destruct (h !! arr) as [[? | elems] |] eqn:Harr; try discriminate.
  rewrite (lookup_weaken _ _ _ _ Harr Hsub).
  by apply readCells_weaken.
Qed.

Lemma readCells_take (elems : list SpellSystem.loc)
    (h : gmap SpellSystem.loc SpellSystem.cell) (l : list Spell) (n : nat) :
  SpellSystem.readCells elems h = Some l ->
  SpellSystem.readCells (firstn n elems) h = Some (firstn n l).
Proof.
  revert l n.
  induction elems as [| p rest IH]; intros l n; cbn.
  - intros [= <-]. by destruct n.
  - destruct (h !! p) as [[s | ?] |] eqn:Hp; try discriminate.
    destruct (SpellSystem.readCells rest h) as [ss |] eqn:Hrest; [| discriminate].
    intros [= <-]. destruct n as [| n]; cbn; [done |].
    by rewrite Hp, (IH ss n eq_refl).
Qed.

Lemma readCells_length (elems : list SpellSystem.loc)
    (h : gmap SpellSystem.loc SpellSystem.cell) (l : list Spell) :
  SpellSystem.readCells elems h = Some l -> length elems = length l.
Proof.
  revert l.
  induction elems as [| p rest IH]; intros l; cbn.
  - by intros [= <-].
  - destruct (h !! p) as [[s | ?] |]; try discriminate.
    destruct (SpellSystem.readCells rest h) as [ss |] eqn:Hrest; [| discriminate].
    intros [= <-]. cbn. f_equal. by apply IH.
Qed.

(** The callback of [map] reads every spell, builds the marked copies in
    new cells and leaves the cells it found as they were. *)
Lemma mapPrepared_spec (elems : list SpellSystem.loc) :
  forall (h : gmap SpellSystem.loc SpellSystem.cell) (l : list Spell),
    SpellSystem.readCells elems h = Some l ->
    exists qs h',
      SpellSystem.mapPrepared elems h = Some (qs, h')
      /\ h ⊆ h'
      /\ SpellSystem.readCells qs h' = Some (map SpellSystem.markPrepared l).
Proof.
  induction elems as [| p rest IH]; intros h l;
    cbn [SpellSystem.mapPrepared SpellSystem.readCells].
  - intros [= <-]. exists [], h. by repeat split.
  - destruct (h !! p) as [[s | ?] |] eqn:Hp; try discriminate.
    destruct (SpellSystem.readCells rest h) as [ss |] eqn:Hrest; [| discriminate].
    intros [= <-].
    pose proof (alloc_subseteq (SpellSystem.SpellCell (SpellSystem.markPrepared s)) h)
      as Hsub.
    pose proof (alloc_lookup (SpellSystem.SpellCell (SpellSystem.markPrepared s)) h)
      as Hnew.
    destruct (SpellSystem.alloc _ h) as [q h1]. cbn in Hsub, Hnew.
    destruct (IH h1 ss (readCells_weaken _ _ _ _ Hsub Hrest))
      as (qs & h2 & -> & Hsub2 & Hread).
    exists (q :: qs), h2. split; [done |].
    split; [by etrans |].
    cbn. by rewrite (lookup_weaken _ _ _ _ Hnew Hsub2), Hread.
Qed.

(** C7: on a store that holds the spell list of the character,
    [prepareDailySpells] returns a new array whose spells are the first
    [N] spells of the character in learn order, each marked prepared,
    where [N = max 1 (floor (level / 2) + floor ((wisdom - 10) / 2))];
    every cell of the store before the call is unchanged after it, so the
    spell list of the character still reads as before. *)
Theorem prepareDailySpells_spec
    (character : Character) (spellsRef : option SpellSystem.loc)
    (h : gmap SpellSystem.loc SpellSystem.cell) :
  SpellSystem.spellsStored h spellsRef (spells character) ->
  exists (preparedRef : SpellSystem.loc) (h' : gmap SpellSystem.loc SpellSystem.cell)
         (preparedSpells : list Spell),
    SpellSystem.prepareDailySpells character spellsRef h = Some (preparedRef, h')
    /\ SpellSystem.readSpells preparedRef h' = Some preparedSpells
    /\ preparedSpells
       = map SpellSystem.markPrepared
           (firstn (Z.to_nat (preparableCount character))
                   (orArr (spells character) []))
    /\ Forall (fun s => prepared s = Some true) preparedSpells
    /\ h !! preparedRef = None
    /\ h ⊆ h'
    /\ SpellSystem.spellsStored h' spellsRef (spells character).
Proof.
  intros Hstored.
  unfold SpellSystem.prepareDailySpells.
  set (q := Qmax 1 _).
  assert (Hq : toIntegerOrInfinity q = preparableCount character)
    by apply preparable_count.
  assert (Hpos : 0 <= toIntegerOrInfinity q)
    by (rewrite Hq; unfold preparableCount; lia).
  (* the array that is sliced, and the store that holds it *)
  assert (Harr : exists arr h0 elems,
    match spellsRef with
    | Some a => (a, h)
    | None => SpellSystem.alloc (SpellSystem.ArrayCell []) h
    end = (arr, h0)
    /\ h ⊆ h0
    /\ h0 !! arr = Some (SpellSystem.ArrayCell elems)
    /\ SpellSystem.readCells elems h0 = Some (orArr (spells character) [])).
  { unfold SpellSystem.spellsStored, SpellSystem.readSpells in Hstored.
    destruct spellsRef as [a |], (spells character) as [l |]; try contradiction.
    - destruct (h !! a) as [[? | elems] |] eqn:Ha; try discriminate.
      exists a, h, elems. by repeat split.
    - pose proof (alloc_subseteq (SpellSystem.ArrayCell []) h) as Hsub.
      pose proof (alloc_lookup (SpellSystem.ArrayCell []) h) as Hnew.
      destruct (SpellSystem.alloc _ h) as [a h0]. cbn in Hsub, Hnew.
      exists a, h0, []. by repeat split. }
  destruct Harr as (arr & h0 & elems & -> & Hsub0 & Harr & Helems).
  unfold SpellSystem.sliceArr. rewrite Harr.
  rewrite slice0_take by exact Hpos. rewrite Hq.
  set (n := Z.to_nat (preparableCount character)).
  pose proof (alloc_subseteq (SpellSystem.ArrayCell (firstn n elems)) h0) as Hsub1.
  pose proof (alloc_lookup (SpellSystem.ArrayCell (firstn n elems)) h0) as Hnew1.
  destruct (SpellSystem.alloc _ h0) as [sliced h1]. cbn in Hsub1, Hnew1.
  unfold SpellSystem.mapArr. rewrite Hnew1.
  assert (Hread1 : SpellSystem.readCells (firstn n elems) h1
                   = Some (firstn n (orArr (spells character) []))).
  { eapply readCells_weaken; [exact Hsub1 |]. by apply readCells_take. }
  destruct (mapPrepared_spec _ _ _ Hread1) as (qs & h2 & -> & Hsub2 & Hread2).
  pose proof (alloc_subseteq (SpellSystem.ArrayCell qs) h2) as Hsub3.
  pose proof (alloc_lookup (SpellSystem.ArrayCell qs) h2) as Hnew3.
  pose proof (alloc_fresh (SpellSystem.ArrayCell qs) h2) as Hfresh3.
  destruct (SpellSystem.alloc _ h2) as [preparedRef h3].
  cbn in Hsub3, Hnew3, Hfresh3.
  assert (Hsub : h ⊆ h3).
  { etrans; [exact Hsub0 |]. etrans; [exact Hsub1 |].
    etrans; [exact Hsub2 | exact Hsub3]. }
  exists preparedRef, h3, (map SpellSystem.markPrepared
                             (firstn n (orArr (spells character) []))).
  split; [done |].
  split.
  { unfold SpellSystem.readSpells. rewrite Hnew3.
    eapply readCells_weaken; [exact Hsub3 | exact Hread2]. }
  split; [done |].
  split.
  { apply List.Forall_forall. intros s Hs.
    apply in_map_iff in Hs as (s0 & <- & _). reflexivity. }
  split.
  { destruct (h !! preparedRef) eqn:Hold; [| done].
    assert (h2 !! preparedRef = Some c) as Hin.
    { eapply lookup_weaken; [exact Hold |].
      etrans; [exact Hsub0 |]. etrans; [exact Hsub1 | exact Hsub2]. }
    congruence. }
  split; [done |].
  unfold SpellSystem.spellsStored in *.
  destruct spellsRef as [a |], (spells character) as [l |]; try done.
  eapply readSpells_weaken; [exact Hsub | exact Hstored].
Qed.

Lemma prepareDailySpells_spec_witness :
  SpellSystem.spellsStored sampleStore (Some 5%positive) (spells sampleWizard)
  /\ exists preparedRef h',
       SpellSystem.prepareDailySpells sampleWizard (Some 5%positive) sampleStore
       = Some (preparedRef, h')
       /\ SpellSystem.readSpells preparedRef h'
          = Some [ mkSpell "Magic Missile" 1 (Some "Evocation") (Some true);
                   mkSpell "Shield" 1 (Some "Abjuration") (Some true);
                   mkSpell "Mage Armor" 1 (Some "Abjuration") (Some true) ]
       /\ SpellSystem.readSpells 5%positive h' = spells sampleWizard.
Proof.
  assert (Hstored : SpellSystem.spellsStored sampleStore (Some 5%positive)
                      (spells sampleWizard)) by (vm_compute; reflexivity).
  split; [exact Hstored |].
  destruct (prepareDailySpells_spec sampleWizard (Some 5%positive) sampleStore Hstored)
    as (preparedRef & h' & preparedSpells & Hrun & Hread & -> & _ & _ & _ & Hkept).
  exists preparedRef, h'. split; [exact Hrun |]. split; [exact Hread |].
  exact Hkept.
Defined.

(** ** The checks of the validation only append messages *)

Lemma emits_id (PE PW : string -> Prop) : emits (fun r => r) PE PW.
Proof.
  intros r. exists [], []. by rewrite !app_nil_r.
Qed.

Lemma emits_pushError (msg : string) (PE PW : string -> Prop) :
  PE msg -> emits (pushError msg) PE PW.
Proof.
  intros Hmsg r. exists [msg], []. cbn. rewrite app_nil_r.
  repeat split; auto.
Qed.

Lemma emits_pushErrors (msgs : list string) (PE PW : string -> Prop) :
  Forall PE msgs -> emits (pushErrors msgs) PE PW.
Proof.
  intros Hmsgs r. exists msgs, []. cbn. rewrite app_nil_r.
  repeat split; auto.
Qed.

Lemma emits_pushWarning (msg : string) (PE PW : string -> Prop) :
  PW msg -> emits (pushWarning msg) PE PW.
Proof.
  intros Hmsg r. exists [], [msg]. cbn. rewrite app_nil_r.
  repeat split; auto.
Qed.

Lemma emits_when (b : bool) (f : ValidationResult -> ValidationResult)
    (PE PW : string -> Prop) :
  (b = true -> emits f PE PW) -> emits (when b f) PE PW.
Proof.
  intros Hf. destruct b; cbn; [by apply Hf | apply emits_id].
Qed.

Lemma emits_comp (f g : ValidationResult -> ValidationResult)
    (PE PW : string -> Prop) :
  emits f PE PW -> emits g PE PW -> emits (fun r => g (f r)) PE PW.
Proof.
  intros Hf Hg r.
  destruct (Hf r) as (es & ws & He & Hw & HPE & HPW).
  destruct (Hg (f r)) as (es' & ws' & He' & Hw' & HPE' & HPW').
  exists (es ++ es'), (ws ++ ws').
  rewrite He', Hw', He, Hw, <- !app_assoc.
  repeat split; try done; by apply Forall_app.
Qed.

Lemma emits_fold {A : Type} (step : ValidationResult -> A -> ValidationResult)
    (l : list A) (PE PW : string -> Prop) :
  (forall x, In x l -> emits (fun r => step r x) PE PW) ->
  emits (fun r => fold_left step l r) PE PW.
Proof.
  induction l as [| x rest IH]; intros Hstep; cbn [fold_left].
  - apply emits_id.
  - apply (emits_comp (fun r => step r x) (fun r => fold_left step rest r)).
    + apply Hstep. by left.
    + apply IH. intros y Hy. apply Hstep. by right.
Qed.

Lemma emits_weaken (f : ValidationResult -> ValidationResult)
    (PE PW PE' PW' : string -> Prop) :
  (forall m, PE m -> PE' m) -> (forall m, PW m -> PW' m) ->
  emits f PE PW -> emits f PE' PW'.
Proof.
  intros HE HW Hf r.
  destruct (Hf r) as (es & ws & He & Hw & HPE & HPW).
  exists es, ws. repeat split; try done.
  - eapply Forall_impl; eauto.
  - eapply Forall_impl; eauto.
Qed.

Lemma emits_errors_kept (f : ValidationResult -> ValidationResult)
    (PE PW : string -> Prop) (r : ValidationResult) (m : string) :
  emits f PE PW -> In m (errors r) -> In m (errors (f r)).
Proof.
  intros Hf Hm. destruct (Hf r) as (es & ws & -> & _).
  apply in_or_app. by left.
Qed.

Lemma emits_warnings_kept (f : ValidationResult -> ValidationResult)
    (PE PW : string -> Prop) (r : ValidationResult) (m : string) :
  emits f PE PW -> In m (warnings r) -> In m (warnings (f r)).
Proof.
  intros Hf Hm. destruct (Hf r) as (es & ws & _ & -> & _).
  apply in_or_app. by left.
Qed.

Lemma emits_errors_origin (f : ValidationResult -> ValidationResult)
    (PE PW : string -> Prop) (r : ValidationResult) (m : string) :
  emits f PE PW -> In m (errors (f r)) -> In m (errors r) \/ PE m.
Proof.
  intros Hf Hm. destruct (Hf r) as (es & ws & He & _ & HPE & _).
  rewrite He in Hm. apply in_app_or in Hm as [Hm | Hm]; [by left | right].
  rewrite List.Forall_forall in HPE. by apply HPE.
Qed.

(** One step through a chain of guarded pushes. *)
Ltac emits_step :=
  lazymatch goal with
  | |- emits (fun r => r) _ _ => apply emits_id
  | |- emits (fun r => when ?b ?f (@?rest r)) _ _ =>
      apply (emits_comp rest (when b f)); [| apply emits_when; intros ?]
  | |- emits (fun r => fold_left ?step ?l (@?rest r)) _ _ =>
      apply (emits_comp rest (fun r => fold_left step l r));
      [| apply emits_fold; intros ? ?]
  | |- emits (pushError _) _ _ => apply emits_pushError
  | |- emits (pushErrors _) _ _ => apply emits_pushErrors
  | |- emits (pushWarning _) _ _ => apply emits_pushWarning; exact I
  | |- emits (fun r => pushWarning ?m r) _ _ =>
      apply (emits_pushWarning m); exact I
  end.

Lemma rangeMessage_eq (a : Ability) :
  rangeMessage a
  = match a with
    | Strength => "Strength score must be between 3 and 20"
    | Dexterity => "Dexterity score must be between 3 and 20"
    | Constitution => "Constitution score must be between 3 and 20"
    | Intelligence => "Intelligence score must be between 3 and 20"
    | Wisdom => "Wisdom score must be between 3 and 20"
    | Charisma => "Charisma score must be between 3 and 20"
    end.
Proof.
  destruct a; vm_compute; reflexivity.
Qed.

(** A message whose first letters differ from those of every range
    message is not a range message. *)
Ltac not_range :=
  let a := fresh "a" in
  intros a; rewrite rangeMessage_eq; destruct a; cbn; discriminate.

Lemma validateBasicInfo_emits (character : Character) :
  emits (validateBasicInfo character) notRange anyMessage.
Proof.
  unfold validateBasicInfo. cbv zeta.
  repeat emits_step; not_range.
Qed.

Lemma checkScoreRange_emits (character : Character) (entry : string * Z) :
  In entry (abilityEntries (abilityScores character)) ->
  emits (fun r => checkScoreRange r entry) (rangeOrOther character) anyMessage.
Proof.
  intros Hin. unfold checkScoreRange.
  apply emits_when. intros Hcond. apply emits_pushError. left.
  apply orb_true_iff in Hcond.
  rewrite !Z.ltb_lt in Hcond. unfold minScore, maxScore in Hcond.
  cbn in Hin.
  destruct Hin as [<- | [<- | [<- | [<- | [<- | [<- | []]]]]]].
  - by exists Strength.
  - by exists Dexterity.
  - by exists Constitution.
  - by exists Intelligence.
  - by exists Wisdom.
  - by exists Charisma.
Qed.

Lemma validateAbilityScores_emits (character : Character) :
  emits (validateAbilityScores character) (rangeOrOther character) anyMessage.
Proof.
  unfold validateAbilityScores. cbv zeta.
  destruct (tableGet racialAbilityRestrictions (race character)) as [rr |].
  - repeat emits_step;
      first [ by apply checkScoreRange_emits | right; not_range ].
  - apply emits_fold. intros entry Hin. by apply checkScoreRange_emits.
Qed.

Lemma validateClassRequirements_emits (character : Character) :
  emits (validateClassRequirements character) notRange anyMessage.
Proof.
  unfold validateClassRequirements.
  cbn [tableGet classRequirements].
  repeat (destruct (String.eqb (class character) _);
          [ cbn [fold_left]; unfold checkClassMinimum; cbn [fst snd];
            repeat emits_step; not_range |]).
  apply emits_id.
Qed.

Lemma validateSkills_emits (character : Character) :
  emits (validateSkills character) notRange anyMessage.
Proof.
  unfold validateSkills.
  destruct (skills character) as [sk |]; [| apply emits_id].
  cbv zeta. unfold checkSkillLevel.
  repeat emits_step; not_range.
Qed.

Lemma checkUniqueItem_emits (inv : list CharacterItem) (seen : gset string) :
  emits (fun r => (fold_left checkUniqueItem inv (seen, r)).2) notRange anyMessage.
Proof.
  revert seen.
  induction inv as [| item rest IH]; intros seen; cbn [fold_left].
  - apply emits_id.
  - unfold checkUniqueItem at 2. cbn [fst snd].
    apply (emits_comp
             (when (bool_decide (item_id item ∈ seen))
                   (pushError ("Duplicate item found: " +:+ item_name item)))
             (fun r => (fold_left checkUniqueItem rest
                          ({[ item_id item ]} ∪ seen, r)).2)).
    + apply emits_when. intros _. apply emits_pushError. not_range.
    + apply IH.
Qed.

Lemma validateInventory_emits (character : Character) :
  emits (validateInventory character) notRange anyMessage.
Proof.
  unfold validateInventory.
  destruct (inventory character) as [inv |]; [| apply emits_id].
  cbv zeta.
  match goal with
  | |- emits (fun r => (fold_left checkUniqueItem inv (∅, @?rest r)).2) _ _ =>
      apply (emits_comp rest
               (fun r => (fold_left checkUniqueItem inv (∅, r)).2))
  end.
  - repeat emits_step; not_range.
  - apply checkUniqueItem_emits.
Qed.

Lemma validateBackstory_emits (character : Character) :
  emits (validateBackstory character) notRange anyMessage.
Proof.
  unfold validateBackstory. cbv zeta.
  match goal with
  | |- emits (fun r => fold_left ?step ?l (@?rest r)) _ _ =>
      apply (emits_comp rest (fun r => fold_left step l r))
  end.
  - destruct (backstory character) as [text |];
      [destruct (truthyStr text) |]; repeat emits_step.
  - apply emits_fold. intros entry _. unfold checkTraitList. cbv zeta.
    repeat emits_step.
Qed.

Section CollaboratorProperties.

Variable validateArchetypeSelection :
  Character -> option ArchetypeFeature -> DelegateResult.
Variable alignmentDefinitions : list (string * Alignment).

Lemma validateArchetype_emits (character : Character) :
  emits (validateArchetype validateArchetypeSelection character)
        (fun m => In m (archetypeErrors validateArchetypeSelection character))
        anyMessage.
Proof.
  unfold validateArchetype, archetypeErrors.
  destruct (archetypeFeatures character) as [features |].
  - apply emits_when. intros _. apply emits_pushErrors.
    apply List.Forall_forall. auto.
  - apply emits_pushWarning. exact I.
Qed.

Lemma validateAlignment_emits (character : Character) :
  emits (validateAlignment alignmentDefinitions character) notRange anyMessage.
Proof.
  unfold validateAlignment.
  destruct (alignment character) as [al |].
  - apply emits_when. intros _. apply emits_pushError. not_range.
  - apply emits_pushWarning. exact I.
Qed.

(** The checks after the multiclass check add no range message of
    their own: an error that they add is not a range message or comes
    from the archetype delegate. *)
Lemma runChecks_emits (character : Character) :
  emits (runChecks validateArchetypeSelection alignmentDefinitions character)
        (fun m => notRange m
                  \/ In m (archetypeErrors validateArchetypeSelection character))
        anyMessage.
Proof.
  unfold runChecks.
  apply (emits_comp
           (fun r => validateInventory character
              (validateSkills character
                 (validateAlignment alignmentDefinitions character
                    (validateArchetype validateArchetypeSelection character r))))
           (validateBackstory character)).
  apply (emits_comp
           (fun r => validateSkills character
              (validateAlignment alignmentDefinitions character
                 (validateArchetype validateArchetypeSelection character r)))
           (validateInventory character)).
  apply (emits_comp
           (fun r => validateAlignment alignmentDefinitions character
              (validateArchetype validateArchetypeSelection character r))
           (validateSkills character)).
  apply (emits_comp
           (validateArchetype validateArchetypeSelection character)
           (validateAlignment alignmentDefinitions character)).
  - eapply emits_weaken; [| | apply validateArchetype_emits]; auto.
  - eapply emits_weaken; [| | apply validateAlignment_emits]; auto.
  - eapply emits_weaken; [| | apply validateSkills_emits]; auto.
  - eapply emits_weaken; [| | apply validateInventory_emits]; auto.
  - eapply emits_weaken; [| | apply validateBackstory_emits]; auto.
Qed.

End CollaboratorProperties.

(** ** The shape of [validateCharacter] *)

Section ValidationProperties.

Variable validateArchetypeSelection :
  Character -> option ArchetypeFeature -> DelegateResult.
Variable alignmentDefinitions : list (string * Alignment).

Abbreviation validate :=
  (validateCharacter validateArchetypeSelection alignmentDefinitions).

(** With a multiclass entry, the call of the missing member ends the
    validation. *)
Lemma validateCharacter_throws (character : Character)
    (entry : MulticlassEntry) (rest : list MulticlassEntry) :
  multiclass character = Some (entry :: rest) ->
  validate character
  = Thrown (TypeError "MulticlassSystem.validateMulticlassing is not a function").
Proof.
  intros Hmc. unfold validateCharacter, validateMulticlassing.
  rewrite Hmc. reflexivity.
Qed.

(** Without one, the eight other checks run and [isValid] is set. *)
Lemma validateCharacter_returns (character : Character) :
  multiclass character = None \/ multiclass character = Some [] ->
  validate character
  = Returned (conclude (runChecks validateArchetypeSelection alignmentDefinitions
                          character (firstChecks character))).
Proof.
  intros Hmc. unfold validateCharacter, validateMulticlassing.
  by destruct Hmc as [-> | ->].
Qed.

Lemma validateCharacter_inv (character : Character) (r : ValidationResult) :
  validate character = Returned r ->
  (multiclass character = None \/ multiclass character = Some [])
  /\ r = conclude (runChecks validateArchetypeSelection alignmentDefinitions
                     character (firstChecks character)).
Proof.
  intros Hr.
  destruct (multiclass character) as [[| entry rest] |] eqn:Hmc.
  - rewrite validateCharacter_returns in Hr by auto.
    injection Hr as <-. auto.
  - rewrite (validateCharacter_throws _ _ _ Hmc) in Hr. discriminate.
  - rewrite validateCharacter_returns in Hr by auto.
    injection Hr as <-. auto.
Qed.

(** [isValid] is true exactly when there is no error. *)
Lemma validateCharacter_isValid (character : Character) (r : ValidationResult) :
  validate character = Returned r ->
  isValid r = true <-> errors r = [].
Proof.
  intros Hr. apply validateCharacter_inv in Hr as [_ ->].
  unfold conclude. cbn [isValid errors].
  destruct (errors _); cbn; split; congruence.
Qed.

End ValidationProperties.

(** C1: for a character whose multiclass list is not empty,
    [validateCharacter] does not evaluate to a [ValidationResult]: at
    [multiclassedFighter] the check of the multiclass entries calls
    [MulticlassSystem.validateMulticlassing], which the class does not
    declare, and the validation ends with a [TypeError]. *)
Theorem validateCharacter_multiclass_TypeError :
  multiclass multiclassedFighter = Some [mkMulticlass "Wizard" 1]
  /\ validateCharacter sampleArchetypeCheck sampleAlignmentDefinitions
       multiclassedFighter
     = Thrown (TypeError "MulticlassSystem.validateMulticlassing is not a function").
Proof.
  split; [reflexivity |].
  by apply (validateCharacter_throws _ _ _ (mkMulticlass "Wizard" 1) []).
Qed.

(** C5: at [overLevelled], whose level 15 and multiclass level 10 add up
    to 25, the check of the combined level would report the error, and
    [validateCharacter] does not reach it: the validation ends with the
    [TypeError] of the delegate call before it. *)
Theorem validateCharacter_total_level_unreached :
  level overLevelled + mc_level (mkMulticlass "Rogue" 10) = 25
  /\ In "Total character levels cannot exceed 20"
        (errors (checkTotalLevel overLevelled [mkMulticlass "Rogue" 10]
                   (firstChecks overLevelled)))
  /\ validateCharacter sampleArchetypeCheck sampleAlignmentDefinitions overLevelled
     = Thrown (TypeError "MulticlassSystem.validateMulticlassing is not a function").
Proof.
  split; [reflexivity |].
  split; [vm_compute; tauto |].
  by apply (validateCharacter_throws _ _ _ (mkMulticlass "Rogue" 10) []).
Qed.

(** ** Range errors of the ability scores *)

Lemma abilityEntry_In (a : Ability) (s : AbilityScores) :
  In (abilityKey a, abilityScore a s) (abilityEntries s).
Proof.
  destruct a; cbn; tauto.
Qed.

Lemma rangeMessage_inj (a b : Ability) : rangeMessage a = rangeMessage b -> a = b.
Proof.
  rewrite !rangeMessage_eq. destruct a, b; (reflexivity || discriminate).
Qed.

Lemma rangeMessage_names (a : Ability) : namesAbility a (rangeMessage a) = true.
Proof.
  destruct a; vm_compute; reflexivity.
Qed.

Lemma checkScoreRange_any (entry : string * Z) :
  emits (fun r => checkScoreRange r entry) anyMessage anyMessage.
Proof.
  unfold checkScoreRange. apply emits_when. intros _.
  by apply emits_pushError.
Qed.

Lemma fold_checkScoreRange_reports (l : list (string * Z)) :
  forall (r : ValidationResult) (entry : string * Z),
    In entry l ->
    (snd entry <? minScore) || (maxScore <? snd entry) = true ->
    In (scoreRangeMessage (fst entry)) (errors (fold_left checkScoreRange l r)).
Proof.
  induction l as [| x rest IH]; intros r entry Hin Hcond; [destruct Hin |].
  cbn [fold_left]. destruct Hin as [-> | Hin].
  - apply (emits_errors_kept (fun r => fold_left checkScoreRange rest r)
             anyMessage anyMessage).
    + apply emits_fold. intros y _. apply checkScoreRange_any.
    + unfold checkScoreRange. rewrite Hcond. cbn.
      apply in_or_app. right. by left.
  - by apply IH.
Qed.

Lemma validateAbilityScores_reports
    (character : Character) (r : ValidationResult) (a : Ability) :
  outOfRange (abilityScore a (abilityScores character)) ->
  In (rangeMessage a) (errors (validateAbilityScores character r)).
Proof.
  intros Hout.
  assert (Hfold : In (rangeMessage a)
            (errors (fold_left checkScoreRange
                       (abilityEntries (abilityScores character)) r))).
  { apply (fold_checkScoreRange_reports _ r
             (abilityKey a, abilityScore a (abilityScores character))).
    - apply abilityEntry_In.
    - cbn [snd]. unfold minScore, maxScore.
      apply orb_true_iff. rewrite !Z.ltb_lt. exact Hout. }
  unfold validateAbilityScores. cbv zeta.
  destruct (tableGet racialAbilityRestrictions (race character)) as [rr |];
    [| exact Hfold].
  unfold when.
  repeat (match goal with
          | |- context [if ?b then _ else _] => destruct b
          end);
    cbn; rewrite ?in_app_iff; auto.
Qed.

Lemma firstChecks_errors (character : Character) (m : string) :
  In m (errors (firstChecks character)) -> rangeOrOther character m.
Proof.
  intros Hm.
  assert (Hemits : emits (fun r => validateClassRequirements character
                            (validateAbilityScores character
                               (validateBasicInfo character r)))
                     (rangeOrOther character) anyMessage).
  { apply (emits_comp
             (fun r => validateAbilityScores character
                         (validateBasicInfo character r))
             (validateClassRequirements character)).
    - apply (emits_comp (validateBasicInfo character)
                        (validateAbilityScores character)).
      + eapply emits_weaken; [| | apply validateBasicInfo_emits]; auto.
        intros m' Hm'. by right.
      + apply validateAbilityScores_emits.
    - eapply emits_weaken; [| | apply validateClassRequirements_emits]; auto.
      intros m' Hm'. by right. }
  apply (emits_errors_origin _ _ _ (mkResult true [] []) m Hemits) in Hm.
  destruct Hm as [[] | Hm]. exact Hm.
Qed.

(** C3, as amended: when [validateCharacter] returns a result, every
    ability whose score is outside [3, 20] has its range error among the
    errors, and that error names the ability; an ability whose score is
    inside [3, 20] has no range error among the errors, unless the
    archetype delegate returned that very message.  (An ability in range
    can still be named by the error of an unmet class or race minimum.) *)
Theorem range_error_follows_range
    (validateArchetypeSelection : Character -> option ArchetypeFeature -> DelegateResult)
    (alignmentDefinitions : list (string * Alignment))
    (character : Character) (r : ValidationResult) (a : Ability) :
  validateCharacter validateArchetypeSelection alignmentDefinitions character
  = Returned r ->
  (outOfRange (abilityScore a (abilityScores character)) ->
   In (rangeMessage a) (errors r) /\ namesAbility a (rangeMessage a) = true)
  /\ (3 <= abilityScore a (abilityScores character) <= 20 ->
      In (rangeMessage a) (errors r) ->
      In (rangeMessage a) (archetypeErrors validateArchetypeSelection character)).
Proof.
  intros Hr. apply validateCharacter_inv in Hr as [_ ->].
  unfold conclude. cbn [errors].
  split.
  - intros Hout. split; [| apply rangeMessage_names].
    apply (emits_errors_kept _ _ _ _ _
             (runChecks_emits validateArchetypeSelection alignmentDefinitions
                character)).
    unfold firstChecks.
    apply (emits_errors_kept _ _ _ _ _
             (validateClassRequirements_emits character)).
    by apply validateAbilityScores_reports.
  - intros Hin Hm.
    apply (emits_errors_origin _ _ _ _ _
             (runChecks_emits validateArchetypeSelection alignmentDefinitions
                character)) in Hm.
    destruct Hm as [Hm | [Hm | Hm]]; [| | exact Hm].
    + apply firstChecks_errors in Hm as [(b & Heq & Hout) | Hnot].
      * apply rangeMessage_inj in Heq as <-.
        unfold outOfRange in Hout. lia.
      * by destruct (Hnot a).
    + by destruct (Hm a).
Qed.

Lemma range_error_follows_range_witness :
  exists r,
    validateCharacter sampleArchetypeCheck sampleAlignmentDefinitions giantFighter
    = Returned r
    /\ outOfRange (abilityScore Strength (abilityScores giantFighter))
    /\ In "Strength score must be between 3 and 20" (errors r).
Proof.
  pose proof (validateCharacter_returns sampleArchetypeCheck
                sampleAlignmentDefinitions giantFighter (or_introl eq_refl)) as Hr.
  eexists. split; [exact Hr |].
  assert (Hout : outOfRange (abilityScore Strength (abilityScores giantFighter)))
    by (right; cbn; lia).
  split; [exact Hout |].
  destruct (range_error_follows_range _ _ _ _ Strength Hr) as [Hreports _].
  destruct (Hreports Hout) as [Hin _].
  rewrite rangeMessage_eq in Hin. exact Hin.
Defined.

(** The statement of C3 as it was written fails at [weakFighter]: the
    strength 10 is inside [3, 20], and the validation reports the error
    of the unmet class minimum, which names the strength. *)
Lemma abilityErrorsFollowRange_counterexample :
  ~ abilityErrorsFollowRange sampleArchetypeCheck sampleAlignmentDefinitions
      weakFighter Strength.
Proof.
  intros [_ Hinside].
  assert (Hin : ~ outOfRange (abilityScore Strength (abilityScores weakFighter)))
    by (unfold outOfRange; cbn; lia).
  pose proof (validateCharacter_returns sampleArchetypeCheck
                sampleAlignmentDefinitions weakFighter (or_introl eq_refl)) as Hr.
  specialize (Hinside Hin _ "Strength must be at least 13 for Fighter" Hr).
  assert (Hm : In "Strength must be at least 13 for Fighter"
                 (errors (conclude (runChecks sampleArchetypeCheck
                                      sampleAlignmentDefinitions weakFighter
                                      (firstChecks weakFighter)))))
    by (vm_compute; tauto).
  specialize (Hinside Hm). vm_compute in Hinside. discriminate.
Qed.

(** ** Warnings near the skill budget and near the carrying capacity *)

Lemma fold_left_sum {A : Type} (f : A -> Z) (l : list A) (start : Z) :
  fold_left (fun sum x => sum + f x) l start
  = start + foldr (fun x acc => f x + acc) 0 l.
Proof.
  revert start. induction l as [| x rest IH]; intros start; cbn; [lia |].
  rewrite IH. lia.
Qed.

Lemma skill_points_total (sk : list (string * Z)) :
  fold_left (fun sum lvl => sum + lvl) (map snd sk) 0 = skillTotal sk.
Proof.
  rewrite (fold_left_sum (fun lvl => lvl)). unfold skillTotal.
  induction sk as [| entry rest IH]; cbn; [reflexivity |].
  cbn in IH. lia.
Qed.

Lemma inventory_weight_total (inv : list CharacterItem) :
  fold_left (fun sum item => sum + orNum (weight item) 0) inv 0 = weightTotal inv.
Proof.
  rewrite (fold_left_sum (fun item => orNum (weight item) 0)).
  unfold weightTotal.
  induction inv as [| item rest IH]; cbn; [reflexivity |].
  cbn in IH.
  assert (Hw : orNum (weight item) 0 = default 0 (weight item)).
  { unfold orNum, truthyNum. destruct (weight item) as [n |]; cbn; [| done].
    destruct (Z.eqb_spec n 0); cbn; lia. }
  lia.
Qed.

Lemma validateSkills_warns
    (character : Character) (r : ValidationResult) (sk : list (string * Z)) :
  skills character = Some sk ->
  4 * (level character * 2) < 5 * skillTotal sk ->
  In skillsNearMaximum (warnings (validateSkills character r)).
Proof.
  intros Hsk Hnear. unfold validateSkills. rewrite Hsk. cbv zeta.
  rewrite skill_points_total.
  apply gtFourFifths_spec in Hnear. rewrite Hnear.
  cbn. apply in_or_app. right. by left.
Qed.

Lemma validateInventory_warns
    (character : Character) (r : ValidationResult) (inv : list CharacterItem) :
  inventory character = Some inv ->
  4 * (15 * strength (abilityScores character)) < 5 * weightTotal inv ->
  In inventoryNearCapacity (warnings (validateInventory character r)).
Proof.
  intros Hinv Hnear. unfold validateInventory. rewrite Hinv. cbv zeta.
  rewrite inventory_weight_total.
  apply gtFourFifths_spec in Hnear. rewrite Hnear.
  apply (emits_warnings_kept _ _ _ _ _ (checkUniqueItem_emits inv ∅)).
  cbn. apply in_or_app. right. by left.
Qed.

(** C9, as amended: when [validateCharacter] returns a result for a
    character with a skills map whose skill levels add up to strictly
    more than 80% of the budget [level * 2], the result carries the
    near-maximum warning; and when the total weight of the inventory is
    strictly more than 80% of the capacity [15 * strength], the result
    carries the near-capacity warning. *)
Theorem warns_above_four_fifths
    (validateArchetypeSelection : Character -> option ArchetypeFeature -> DelegateResult)
    (alignmentDefinitions : list (string * Alignment))
    (character : Character) (r : ValidationResult) :
  validateCharacter validateArchetypeSelection alignmentDefinitions character
  = Returned r ->
  (forall sk,
     skills character = Some sk ->
     4 * (level character * 2) < 5 * skillTotal sk ->
     In skillsNearMaximum (warnings r))
  /\ (forall inv,
        inventory character = Some inv ->
        4 * (15 * strength (abilityScores character)) < 5 * weightTotal inv ->
        In inventoryNearCapacity (warnings r)).
Proof.
  intros Hr. apply validateCharacter_inv in Hr as [_ ->].
  unfold conclude, runChecks. cbn [warnings].
  split.
  - intros sk Hsk Hnear.
    apply (emits_warnings_kept _ _ _ _ _ (validateBackstory_emits character)).
    apply (emits_warnings_kept _ _ _ _ _ (validateInventory_emits character)).
    by apply (validateSkills_warns character _ sk).
  - intros inv Hinv Hnear.
    apply (emits_warnings_kept _ _ _ _ _ (validateBackstory_emits character)).
    by apply (validateInventory_warns character _ inv).
Qed.

Lemma warns_above_four_fifths_witness :
  exists r,
    validateCharacter sampleArchetypeCheck sampleAlignmentDefinitions aboveFourFifths
    = Returned r
    /\ 4 * (level aboveFourFifths * 2) < 5 * skillTotal [("stealth", 9)]
    /\ 4 * (15 * strength (abilityScores aboveFourFifths))
       < 5 * weightTotal [mkItem "i-1" "Anvil" (Some 121)]
    /\ In skillsNearMaximum (warnings r)
    /\ In inventoryNearCapacity (warnings r).
Proof.
  pose proof (validateCharacter_returns sampleArchetypeCheck
                sampleAlignmentDefinitions aboveFourFifths (or_introl eq_refl)) as Hr.
  eexists. split; [exact Hr |].
  assert (Hskills : 4 * (level aboveFourFifths * 2) < 5 * skillTotal [("stealth", 9)])
    by (cbn; lia).
  assert (Hweight : 4 * (15 * strength (abilityScores aboveFourFifths))
                    < 5 * weightTotal [mkItem "i-1" "Anvil" (Some 121)])
    by (cbn; lia).
  split; [exact Hskills |]. split; [exact Hweight |].
  destruct (warns_above_four_fifths _ _ _ _ Hr) as [Hs Hw].
  split.
  - exact (Hs _ eq_refl Hskills).
  - exact (Hw _ eq_refl Hweight).
Defined.

(** The statement of C9 as it was written fails at [atFourFifths]: the
    skill points are 8 of 10 and the weight is 120 of 150, both exactly
    80%, and the result carries neither warning. *)
Lemma warnsFromFourFifths_counterexample :
  ~ warnsFromFourFifths sampleArchetypeCheck sampleAlignmentDefinitions atFourFifths.
Proof.
  intros [Hskills _].
  destruct (Hskills [("stealth", 8)] eq_refl) as (r & Hr & Hin);
    [cbn; lia |].
  rewrite validateCharacter_returns in Hr by (left; reflexivity).
  injection Hr as <-.
  vm_compute in Hin.
  repeat (destruct Hin as [Hin | Hin]; [discriminate |]).
  exact Hin.
Qed.

(** ** Export and import *)

Section ExportProperties.

Variable validateArchetypeSelection :
  Character -> option ArchetypeFeature -> DelegateResult.
Variable alignmentDefinitions : list (string * Alignment).

(** The validation reads the game data of the character, and the
    archetype delegate is handed the character. *)
Lemma validateCharacter_gameData (c : Character) :
  readsGameData validateArchetypeSelection ->
  validateCharacter validateArchetypeSelection alignmentDefinitions (gameData c)
  = validateCharacter validateArchetypeSelection alignmentDefinitions c.
Proof.
  intros Hreads.
  unfold validateCharacter, validateArchetype.
  cbn [gameData name race class level abilityScores inventory backstory
       traits multiclass archetypeFeatures alignment skills].
  destruct (archetypeFeatures c) as [features |]; [| reflexivity].
  by rewrite <- (Hreads c (head features)).
Qed.

End ExportProperties.

(** C10: for a character that fails the validation, [exportCharacter]
    returns [success = false] with the errors of the validation and no
    export data, in an unchanged world; and whenever [exportCharacter]
    returns export data, the validation of the character returned an
    empty list of errors. *)
Theorem exportCharacter_gated_on_validity
    (validateArchetypeSelection : Character -> option ArchetypeFeature -> DelegateResult)
    (alignmentDefinitions : list (string * Alignment))
    (c : Character) (w : World) :
  (forall r,
     validateCharacter validateArchetypeSelection alignmentDefinitions c
     = Returned r ->
     errors r <> [] ->
     exportCharacter validateArchetypeSelection alignmentDefinitions c w
     = (Returned (mkExportResult false None (Some (errors r))), w))
  /\ (forall res w' d,
        exportCharacter validateArchetypeSelection alignmentDefinitions c w
        = (Returned res, w') ->
        export_data res = Some d ->
        export_success res = true
        /\ exists r,
             validateCharacter validateArchetypeSelection alignmentDefinitions c
             = Returned r
             /\ errors r = []).
Proof.
  split.
  - intros r Hr Herr. unfold exportCharacter. rewrite Hr.
    destruct (isValid r) eqn:Hvalid; [| reflexivity].
    apply (validateCharacter_isValid _ _ _ _ Hr) in Hvalid. contradiction.
  - intros res w' d. unfold exportCharacter.
    destruct (validateCharacter _ _ c) as [r | e] eqn:Hr; [| discriminate].
    destruct (isValid r) eqn:Hvalid; cbn [negb].
    + intros [= <- _] _. split; [reflexivity |].
      exists r. split; [reflexivity |].
      by apply (validateCharacter_isValid _ _ _ _ Hr).
    + intros [= <- _]. discriminate.
Qed.

Lemma exportCharacter_gated_on_validity_witness :
  exists r,
    validateCharacter sampleArchetypeCheck sampleAlignmentDefinitions weakFighter
    = Returned r
    /\ errors r <> []
    /\ exportCharacter sampleArchetypeCheck sampleAlignmentDefinitions
         weakFighter sampleWorld
       = (Returned (mkExportResult false None
                      (Some ["Strength must be at least 13 for Fighter"])),
          sampleWorld).
Proof.
  pose proof (validateCharacter_returns sampleArchetypeCheck
                sampleAlignmentDefinitions weakFighter (or_introl eq_refl)) as Hr.
  eexists. split; [exact Hr |].
  assert (Herr : errors (conclude (runChecks sampleArchetypeCheck
                                     sampleAlignmentDefinitions weakFighter
                                     (firstChecks weakFighter))) <> [])
    by (vm_compute; discriminate).
  split; [exact Herr |].
  destruct (exportCharacter_gated_on_validity sampleArchetypeCheck
              sampleAlignmentDefinitions weakFighter sampleWorld) as [Hfail _].
  rewrite (Hfail _ Hr Herr). reflexivity.
Defined.

(** Exporting an accepted character and importing the envelope within
    the age window. *)
Lemma import_after_export
    (validateArchetypeSelection : Character -> option ArchetypeFeature -> DelegateResult)
    (alignmentDefinitions : list (string * Alignment))
    (c : Character) (r : ValidationResult) (w w2 : World) :
  readsGameData validateArchetypeSelection ->
  validateCharacter validateArchetypeSelection alignmentDefinitions c
  = Returned r ->
  isValid r = true ->
  exists d w1,
    exportCharacter validateArchetypeSelection alignmentDefinitions c w
    = (Returned (mkExportResult true (Some d) None), w1)
    /\ version d = "1.1.0"
    /\ timestamp d = clock w (clockReads w)
    /\ forall d',
         version d' = version d ->
         character d' = character d ->
         clock w2 (clockReads w2) - timestamp d' <= MAX_EXPORT_AGE ->
         exists w3,
           importCharacter validateArchetypeSelection alignmentDefinitions d' w2
           = (Returned
                (mkImportResult true
                   (Some (importedFrom c (uuids w2 (uuidsDrawn w2))
                                       (clock w (S (clockReads w)))))
                   None),
              w3).
Proof.
  intros Hreads Hr Hvalid.
  unfold exportCharacter. rewrite Hr, Hvalid. cbn [negb].
  unfold uuidv4, Date_now, sanitizeCharacterData, Date_now.
  cbn [clock clockReads uuids uuidsDrawn].
  eexists _, _. split; [reflexivity |].
  split; [reflexivity |]. split; [reflexivity |].
  cbn [version character timestamp].
  intros d' Hversion Hcharacter Hage.
  unfold importCharacter. rewrite Hversion. cbn [String.eqb negb].
  change (String.eqb "1.1.0" "1.1.0") with true. cbn [negb].
  unfold Date_now, uuidv4. cbn [clock clockReads uuids uuidsDrawn].
  destruct (Z.ltb_spec MAX_EXPORT_AGE (clock w2 (clockReads w2) - timestamp d'))
    as [? | _]; [lia |].
  rewrite Hcharacter.
  set (imported := withId _ _).
  assert (Himported : imported = importedFrom c (uuids w2 (uuidsDrawn w2))
                                   (clock w (S (clockReads w))))
    by reflexivity.
  assert (Hsame : validateCharacter validateArchetypeSelection
                    alignmentDefinitions imported = Returned r).
  { rewrite <- (validateCharacter_gameData _ _ imported Hreads).
    rewrite <- (validateCharacter_gameData _ _ c Hreads) in Hr.
    exact Hr. }
  rewrite Hsame, Hvalid. cbn [negb]. rewrite Himported.
  eexists. reflexivity.
Qed.

(** C2, as amended: for an archetype check that reads the game data of
    the character only, a character accepted by the validation is
    exported with version 1.1.0, and importing an envelope with that
    version and that character whose time stamp is at most
    365 * 24 * 3600 * 1000 ms old succeeds; the imported character has
    the id drawn at the import, no [status] and no [campaignId], the
    [exportedAt] stamp of the export, and every other property of the
    original.  An envelope of another version is refused with the
    version error, and an envelope older than the limit is refused
    whatever its version. *)
Theorem export_import_round_trip
    (validateArchetypeSelection : Character -> option ArchetypeFeature -> DelegateResult)
    (alignmentDefinitions : list (string * Alignment)) :
  (forall (c : Character) (r : ValidationResult) (w w2 : World),
     readsGameData validateArchetypeSelection ->
     validateCharacter validateArchetypeSelection alignmentDefinitions c
     = Returned r ->
     isValid r = true ->
     exists d w1,
       exportCharacter validateArchetypeSelection alignmentDefinitions c w
       = (Returned (mkExportResult true (Some d) None), w1)
       /\ version d = "1.1.0"
       /\ timestamp d = clock w (clockReads w)
       /\ forall d',
            version d' = version d ->
            character d' = character d ->
            clock w2 (clockReads w2) - timestamp d' <= MAX_EXPORT_AGE ->
            exists w3,
              importCharacter validateArchetypeSelection alignmentDefinitions d' w2
              = (Returned
                   (mkImportResult true
                      (Some (importedFrom c (uuids w2 (uuidsDrawn w2))
                                          (clock w (S (clockReads w)))))
                      None),
                 w3))
  /\ (forall (d : ExportFormat) (w : World),
        version d <> "1.1.0" ->
        importCharacter validateArchetypeSelection alignmentDefinitions d w
        = (Returned (mkImportResult false None (Some ["Incompatible export version"])),
           w))
  /\ (forall (d : ExportFormat) (w : World),
        MAX_EXPORT_AGE < clock w (clockReads w) - timestamp d ->
        exists errs w',
          importCharacter validateArchetypeSelection alignmentDefinitions d w
          = (Returned (mkImportResult false None (Some errs)), w')).
Proof.
  split; [| split].
  - intros c r w w2. apply import_after_export.
  - intros d w Hversion. unfold importCharacter.
    destruct (String.eqb_spec (version d) "1.1.0") as [Heq | _];
      [contradiction | reflexivity].
  - intros d w Hold. unfold importCharacter.
    destruct (String.eqb (version d) "1.1.0"); cbn [negb].
    + unfold Date_now. cbn [clock clockReads].
      destruct (Z.ltb_spec MAX_EXPORT_AGE (clock w (clockReads w) - timestamp d))
        as [_ | ?]; [| lia].
      eexists _, _. reflexivity.
    + eexists _, _. reflexivity.
Qed.

Lemma sampleFighter_valid :
  validateCharacter sampleArchetypeCheck sampleAlignmentDefinitions sampleFighter
  = Returned (mkResult true []
                ["No archetype selected for Fighter"; "No alignment specified"]).
Proof.
  vm_compute. reflexivity.
Qed.

Lemma sampleArchetypeCheck_readsGameData : readsGameData sampleArchetypeCheck.
Proof.
  intros c feature. reflexivity.
Qed.

Lemma export_import_round_trip_witness :
  readsGameData sampleArchetypeCheck
  /\ (exists r,
        validateCharacter sampleArchetypeCheck sampleAlignmentDefinitions
          sampleFighter = Returned r
        /\ isValid r = true)
  /\ (exists d w1 w3,
        exportCharacter sampleArchetypeCheck sampleAlignmentDefinitions
          sampleFighter sampleWorld
        = (Returned (mkExportResult true (Some d) None), w1)
        /\ clock nextDay (clockReads nextDay) - timestamp d <= MAX_EXPORT_AGE
        /\ importCharacter sampleArchetypeCheck sampleAlignmentDefinitions d nextDay
           = (Returned
                (mkImportResult true
                   (Some (importedFrom sampleFighter "uuid-1" 1700000000001))
                   None),
              w3))
  /\ (version foreignEnvelope <> "1.1.0"
      /\ importCharacter sampleArchetypeCheck sampleAlignmentDefinitions
           foreignEnvelope nextDay
         = (Returned (mkImportResult false None
                        (Some ["Incompatible export version"])),
            nextDay))
  /\ (MAX_EXPORT_AGE < clock nextDay (clockReads nextDay) - timestamp staleEnvelope
      /\ exists errs w',
           importCharacter sampleArchetypeCheck sampleAlignmentDefinitions
             staleEnvelope nextDay
           = (Returned (mkImportResult false None (Some errs)), w')).
Proof.
  destruct (export_import_round_trip sampleArchetypeCheck sampleAlignmentDefinitions)
    as (Hround & Hversion & Hstale).
  split; [exact sampleArchetypeCheck_readsGameData |].
  split; [eexists; split; [exact sampleFighter_valid | reflexivity] |].
  split.
  { destruct (Hround sampleFighter _ sampleWorld nextDay
                sampleArchetypeCheck_readsGameData sampleFighter_valid eq_refl)
      as (d & w1 & Hexport & Hv & Ht & Himport).
    assert (Hage : clock nextDay (clockReads nextDay) - timestamp d
                   <= MAX_EXPORT_AGE)
      by (rewrite Ht; vm_compute; discriminate).
    destruct (Himport d eq_refl eq_refl Hage) as (w3 & Hw3).
    exists d, w1, w3. split; [exact Hexport |]. split; [exact Hage |].
    exact Hw3. }
  split.
  { assert (Hne : version foreignEnvelope <> "1.1.0") by (cbn; discriminate).
    split; [exact Hne |]. exact (Hversion foreignEnvelope nextDay Hne). }
  assert (Hold : MAX_EXPORT_AGE
                 < clock nextDay (clockReads nextDay) - timestamp staleEnvelope)
    by (vm_compute; reflexivity).
  split; [exact Hold |]. exact (Hstale staleEnvelope nextDay Hold).
Defined.

(** The statement of C2 as it was written fails at [sampleFighter]: the
    character that the import returns has neither the status nor the
    campaign of the original, and carries the [exportedAt] stamp. *)
Lemma roundTripKeepsAllButId_counterexample :
  ~ roundTripKeepsAllButId sampleArchetypeCheck sampleAlignmentDefinitions
      sampleFighter sampleWorld nextDay.
Proof.
  intros Hclaim.
  destruct (Hclaim _ sampleFighter_valid eq_refl) as (d & w1 & Hexport & Himport).
  destruct (import_after_export sampleArchetypeCheck sampleAlignmentDefinitions
              sampleFighter _ sampleWorld nextDay
              sampleArchetypeCheck_readsGameData sampleFighter_valid eq_refl)
    as (d0 & w0 & Hexport0 & Hv & Ht & Himport0).
  rewrite Hexport in Hexport0. injection Hexport0 as <- <-.
  assert (Hage : clock nextDay (clockReads nextDay) - timestamp d <= MAX_EXPORT_AGE)
    by (rewrite Ht; vm_compute; discriminate).
  destruct (Himport Hage) as (imported & w3 & Hrun & Hsame).
  destruct (Himport0 d eq_refl eq_refl Hage) as (w3' & Hrun').
  rewrite Hrun in Hrun'. injection Hrun' as -> _.
  discriminate Hsame.
Qed.

(** ** Background updates *)

Lemma sameId_refl (a : option string) : CharacterManager.sameId a a = true.
Proof.
  destruct a as [x |]; cbn; [apply String.eqb_refl | reflexivity].
Qed.

Lemma sameId_eq (a b : option string) :
  CharacterManager.sameId a b = true -> a = b.
Proof.
  destruct a as [x |], b as [y |]; cbn; try discriminate; [| done].
  intros Heq. apply String.eqb_eq in Heq. by subst.
Qed.

(** Replacing the first element that satisfies [p] by another element
    that satisfies [p]: the new element is the first that satisfies [p]. *)
Lemma find_after_replace {A : Type} (p : A -> bool) (l : list A) (x y : A) :
  find p l = Some x -> p y = true ->
  exists i,
    CharacterManager.findIndex p l = Some i
    /\ l !! i = Some x
    /\ find p (<[i := y]> l) = Some y.
Proof.
  intros Hfind Hy.
  induction l as [| z rest IH]; cbn in *; [discriminate |].
  destruct (p z) eqn:Hz.
  - injection Hfind as ->. exists 0%nat. cbn. by rewrite Hy.
  - destruct (IH Hfind) as (i & -> & Hi & Hrest).
    exists (S i). cbn. by rewrite Hz.
Qed.

(** A predicate that does not tell the old element from the new one and
    rejects both finds the same element before and after. *)
Lemma find_other_after_replace {A : Type} (q : A -> bool) (l : list A)
    (i : nat) (x y : A) :
  l !! i = Some x -> q x = false -> q y = false ->
  find q (<[i := y]> l) = find q l.
Proof.
  revert i. induction l as [| z rest IH]; intros i Hi Hx Hy; [done |].
  destruct i as [| i]; cbn in *.
  - injection Hi as ->. by rewrite Hx, Hy.
  - destruct (q z); [done |]. by apply IH.
Qed.

Lemma traitOr_present (supplied : option (list string)) (t : Traits)
    (field : Traits -> list string) (fieldName : string) :
  CharacterManager.traitOr supplied (Some t) field fieldName
  = Returned (default (field t) supplied).
Proof.
  by destruct supplied.
Qed.

Lemma orStr_empty_keeps (supplied : option string) (old : option string) :
  orStr supplied old
  = match supplied with
    | Some text => if decide (text = "") then old else Some text
    | None => old
    end.
Proof.
  destruct supplied as [text |]; [| reflexivity].
  unfold orStr, truthyStr.
  destruct (String.eqb_spec text ""); destruct (decide (text = "")); done.
Qed.

(** C8, as amended: [updateCharacterBackground] fails with the error
    "Character not found" and leaves the storage as it is when no
    character is stored under the id.  For a stored character that has
    trait lists, it replaces the backstory when a non-empty backstory is
    supplied and each trait list that is supplied, keeps every field that
    is not supplied and every other property of the character, returns
    the updated character and stores it: the storage then gives the
    updated character for the id and the same character as before for
    every other id. *)
Theorem updateCharacterBackground_spec
    (characterId : string) (data : CharacterManager.BackstoryData)
    (st : CharacterManager.Storage) :
  (CharacterManager.getCharacterById characterId st = None ->
   CharacterManager.updateCharacterBackground characterId data st
   = (Thrown (Error "Character not found"), st))
  /\ (forall c t,
        CharacterManager.getCharacterById characterId st = Some c ->
        traits c = Some t ->
        exists st',
          CharacterManager.updateCharacterBackground characterId data st
          = (Returned (withBackground c t data), st')
          /\ st' = CharacterManager.saveCharacter (withBackground c t data) st
          /\ CharacterManager.getCharacterById characterId st'
             = Some (withBackground c t data)
          /\ forall other,
               other <> characterId ->
               CharacterManager.getCharacterById other st'
               = CharacterManager.getCharacterById other st).
Proof.
  split.
  - intros Hnone. unfold CharacterManager.updateCharacterBackground.
    by rewrite Hnone.
  - intros c t Hfound Htraits.
    unfold CharacterManager.updateCharacterBackground. rewrite Hfound.
    cbn [CharacterManager.withBackstory traits]. rewrite Htraits.
    rewrite !traitOr_present. cbn [mbind outcome_bind obind mret outcome_ret].
    rewrite orStr_empty_keeps.
    eexists. split; [reflexivity |]. split; [reflexivity |].
    fold (withBackground c t data).
    set (c' := withBackground c t data).
    change (CharacterManager.withTraits _ _) with c'.
    assert (Hid : id c = Some characterId).
    { unfold CharacterManager.getCharacterById in Hfound.
      apply find_some in Hfound as [_ Hsame]. by apply sameId_eq in Hsame. }
    unfold CharacterManager.saveCharacter, CharacterManager.getCharacterById in *.
    change (id c') with (id c). rewrite Hid.
    destruct (find_after_replace _ _ c c' Hfound) as (i & -> & Hi & Hnew).
    { change (id c') with (id c). rewrite Hid. apply sameId_refl. }
    cbn [CharacterManager.getAllCharacters].
    split; [exact Hnew |].
    intros other Hother.
    assert (Hrej : CharacterManager.sameId (Some characterId) (Some other) = false).
    { cbn. apply String.eqb_neq. congruence. }
    apply (find_other_after_replace _ _ i c c' Hi).
    + by rewrite Hid.
    + change (id c') with (id c). by rewrite Hid.
Qed.

Lemma updateCharacterBackground_spec_witness :
  CharacterManager.getCharacterById "nobody" sampleStorage = None
  /\ CharacterManager.updateCharacterBackground "nobody" newBackground sampleStorage
     = (Thrown (Error "Character not found"), sampleStorage)
  /\ CharacterManager.getCharacterById "c-1" sampleStorage = Some sampleFighter
  /\ traits sampleFighter
     = Some (mkTraits ["Brave"] ["Honor"] ["Family"] ["Stubborn"])
  /\ exists updated st',
       CharacterManager.updateCharacterBackground "c-1" newBackground sampleStorage
       = (Returned updated, st')
       /\ backstory updated = Some "Left home at sixteen."
       /\ traits updated
          = Some (mkTraits ["Brave"] ["Honor"] ["The company"] ["Stubborn"])
       /\ CharacterManager.getCharacterById "c-1" st' = Some updated
       /\ CharacterManager.getCharacterById "c-2" st' = Some sampleWizard.
Proof.
  destruct (updateCharacterBackground_spec "nobody" newBackground sampleStorage)
    as [Habsent _].
  destruct (updateCharacterBackground_spec "c-1" newBackground sampleStorage)
    as [_ Hstored].
  assert (Hnone : CharacterManager.getCharacterById "nobody" sampleStorage = None)
    by reflexivity.
  assert (Hsome : CharacterManager.getCharacterById "c-1" sampleStorage
                  = Some sampleFighter) by reflexivity.
  assert (Htraits : traits sampleFighter
                    = Some (mkTraits ["Brave"] ["Honor"] ["Family"] ["Stubborn"]))
    by reflexivity.
  split; [exact Hnone |]. split; [exact (Habsent Hnone) |].
  split; [exact Hsome |]. split; [exact Htraits |].
  destruct (Hstored _ _ Hsome Htraits) as (st' & Hrun & _ & Hread & Hothers).
  eexists _, st'. split; [exact Hrun |].
  split; [reflexivity |]. split; [reflexivity |].
  split; [exact Hread |].
  rewrite (Hothers "c-2") by discriminate. reflexivity.
Defined.

(** The statement of C8 as it was written fails at [sampleStorage]: an
    empty backstory is supplied for the stored [sampleFighter], and the
    returned character keeps the backstory it had. *)
Lemma replacesEverySuppliedField_counterexample :
  ~ replacesEverySuppliedField "c-1" clearBackstory sampleStorage.
Proof.
  intros Hclaim.
  destruct (Hclaim sampleFighter eq_refl) as (c' & Hrun & Hbackstory & _).
  specialize (Hbackstory "" eq_refl).
  assert (Hkept : (CharacterManager.updateCharacterBackground "c-1" clearBackstory
                     sampleStorage).1
                  = Returned (CharacterManager.withTraits (traits sampleFighter)
                                sampleFighter))
    by reflexivity.
  rewrite Hrun in Hkept. cbn [fst] in Hkept. injection Hkept as ->.
  discriminate Hbackstory.
Qed.

(** * Further properties of the rules engine *)

(** ** When a check leaves the error list empty *)


Lemma errors_when_pushWarning (b : bool) (m : string) (r : ValidationResult) :
  errors (when b (pushWarning m) r) = errors r.
Proof.
  by destruct b.
Qed.









Lemma class_minimum_keys (s : AbilityScores) :
  scoreOf s (toLowerCase (replaceFirst "min" "" "minStrength"))
  = Some (strength s)
  /\ scoreOf s (toLowerCase (replaceFirst "min" "" "minDexterity"))
     = Some (dexterity s)
  /\ scoreOf s (toLowerCase (replaceFirst "min" "" "minConstitution"))
     = Some (constitution s)
  /\ scoreOf s (toLowerCase (replaceFirst "min" "" "minIntelligence"))
     = Some (intelligence s)
  /\ scoreOf s (toLowerCase (replaceFirst "min" "" "minWisdom"))
     = Some (wisdom s).
Proof.
  repeat split; reflexivity.
Qed.






Lemma validateBackstory_errors (c : Character) (r : ValidationResult) :
  errors (validateBackstory c r) = errors r.
Proof.
  unfold validateBackstory. cbv zeta.
  set (r1 := match backstory c with
             | Some text => _
             | None => _
             end).
  assert (Hr1 : errors r1 = errors r).
  { subst r1. destruct (backstory c) as [text |]; [| reflexivity].
    destruct (truthyStr text); [apply errors_when_pushWarning | reflexivity]. }
  rewrite <- Hr1. generalize r1. clear.
  induction (traitEntries (traits c)) as [| entry rest IH]; intros r1;
    cbn [fold_left]; [reflexivity |].
  rewrite IH. unfold checkTraitList. cbv zeta.
  by rewrite !errors_when_pushWarning.
Qed.



(** ** What the validation accepts *)



Lemma validateCharacter_error_invalid
    (validateArchetypeSelection : Character -> option ArchetypeFeature -> DelegateResult)
    (alignmentDefinitions : list (string * Alignment))
    (c : Character) (r : ValidationResult) (m : string) :
  validateCharacter validateArchetypeSelection alignmentDefinitions c = Returned r ->
  In m (errors r) -> isValid r = false.
Proof.
  intros Hr Hm. destruct (isValid r) eqn:Hvalid; [| reflexivity].
  apply (validateCharacter_isValid _ _ _ _ Hr) in Hvalid.
  rewrite Hvalid in Hm. destruct Hm.
Qed.

(** X2: a character that carries a multiclass entry cannot be validated,
    exported, backed up or imported: each of the four calls ends with the
    [TypeError] of the call of [MulticlassSystem.validateMulticlassing];
    the export and the backup leave the clock and the id generator
    untouched. *)
Theorem multiclass_entry_stops_every_caller
    (validateArchetypeSelection : Character -> option ArchetypeFeature -> DelegateResult)
    (alignmentDefinitions : list (string * Alignment))
    (c : Character) (entry : MulticlassEntry) (rest : list MulticlassEntry)
    (w : World) :
  multiclass c = Some (entry :: rest) ->
  validateCharacter validateArchetypeSelection alignmentDefinitions c
  = Thrown missingDelegate
  /\ exportCharacter validateArchetypeSelection alignmentDefinitions c w
     = (Thrown missingDelegate, w)
  /\ createCharacterBackup validateArchetypeSelection alignmentDefinitions c w
     = (Thrown missingDelegate, w)
  /\ forall d,
       character d = c ->
       version d = "1.1.0" ->
       clock w (clockReads w) - timestamp d <= MAX_EXPORT_AGE ->
       exists w',
         importCharacter validateArchetypeSelection alignmentDefinitions d w
         = (Thrown missingDelegate, w').
Proof.
  intros Hmc.
  pose proof (validateCharacter_throws validateArchetypeSelection
                alignmentDefinitions c entry rest Hmc) as Hthrows.
  assert (Hexport : exportCharacter validateArchetypeSelection
                      alignmentDefinitions c w = (Thrown missingDelegate, w)).
  { unfold exportCharacter. by rewrite Hthrows. }
  split; [exact Hthrows |]. split; [exact Hexport |].
  split.
  - unfold createCharacterBackup. by rewrite Hexport.
  - intros d Hcharacter Hversion Hage.
    unfold importCharacter. rewrite Hversion.
    change (String.eqb "1.1.0" "1.1.0") with true. cbn [negb].
    unfold Date_now, uuidv4. cbn [clock clockReads uuids uuidsDrawn].
    destruct (Z.ltb_spec MAX_EXPORT_AGE (clock w (clockReads w) - timestamp d))
      as [? | _]; [lia |].
    rewrite (validateCharacter_throws validateArchetypeSelection
               alignmentDefinitions _ entry rest)
      by (rewrite Hcharacter; exact Hmc).
    eexists. reflexivity.
Qed.

Lemma multiclass_entry_stops_every_caller_witness :
  multiclass multiclassedFighter = Some [mkMulticlass "Wizard" 1]
  /\ exportCharacter sampleArchetypeCheck sampleAlignmentDefinitions
       multiclassedFighter sampleWorld
     = (Thrown missingDelegate, sampleWorld).
Proof.
  split; [reflexivity |].
  by apply (multiclass_entry_stops_every_caller _ _ multiclassedFighter
              (mkMulticlass "Wizard" 1) [] sampleWorld).
Defined.

(** ** The errors of the budgets and of the class minimums *)

Lemma validateInventory_overweight
    (c : Character) (r : ValidationResult) (inv : list CharacterItem) :
  inventory c = Some inv ->
  15 * strength (abilityScores c) < weightTotal inv ->
  In ("Inventory weight (" +:+ numToString (weightTotal inv)
      +:+ ") exceeds carrying capacity of "
      +:+ numToString (15 * strength (abilityScores c)))
     (errors (validateInventory c r)).
Proof.
  intros Hinv Hover. unfold validateInventory. rewrite Hinv. cbv zeta.
  rewrite inventory_weight_total.
  apply Z.ltb_lt in Hover. rewrite Hover.
  apply (emits_errors_kept _ _ _ _ _ (checkUniqueItem_emits inv ∅)).
  unfold when at 1. destruct (gtFourFifths _ _); cbn;
    apply in_or_app; right; by left.
Qed.

Lemma validateSkills_overspent
    (c : Character) (r : ValidationResult) (sk : list (string * Z)) :
  skills c = Some sk ->
  level c * 2 < skillTotal sk ->
  In ("Total skill points (" +:+ numToString (skillTotal sk)
      +:+ ") cannot exceed " +:+ numToString (level c * 2))
     (errors (validateSkills c r)).
Proof.
  intros Hsk Hover. unfold validateSkills. rewrite Hsk. cbv zeta.
  rewrite skill_points_total.
  apply Z.ltb_lt in Hover. rewrite Hover.
  unfold when at 1. destruct (gtFourFifths _ _); cbn;
    apply in_or_app; right; by left.
Qed.

(** X3: when [validateCharacter] returns a result for a character whose
    inventory weighs more than [15 * strength], the errors hold the
    message that cites the weight and the capacity; when the skill levels
    add up to more than [level * 2], the errors hold the message that
    cites the total and the budget; in both cases [isValid] is false. *)
Theorem budget_errors_cite_both_numbers
    (validateArchetypeSelection : Character -> option ArchetypeFeature -> DelegateResult)
    (alignmentDefinitions : list (string * Alignment))
    (c : Character) (r : ValidationResult) :
  validateCharacter validateArchetypeSelection alignmentDefinitions c = Returned r ->
  (forall inv,
     inventory c = Some inv ->
     15 * strength (abilityScores c) < weightTotal inv ->
     In ("Inventory weight (" +:+ numToString (weightTotal inv)
         +:+ ") exceeds carrying capacity of "
         +:+ numToString (15 * strength (abilityScores c)))
        (errors r)
     /\ isValid r = false)
  /\ (forall sk,
        skills c = Some sk ->
        level c * 2 < skillTotal sk ->
        In ("Total skill points (" +:+ numToString (skillTotal sk)
            +:+ ") cannot exceed " +:+ numToString (level c * 2))
           (errors r)
        /\ isValid r = false).
Proof.
  intros Hr.
  pose proof (fun m => validateCharacter_error_invalid _ _ _ _ m Hr) as Hinvalid.
  apply validateCharacter_inv in Hr as [_ ->].
  unfold conclude, runChecks in *. cbn [errors] in *.
  rewrite validateBackstory_errors in *.
  split.
  - intros inv Hinv Hover.
    pose proof (validateInventory_overweight c
                  (validateSkills c
                     (validateAlignment alignmentDefinitions c
                        (validateArchetype validateArchetypeSelection c
                           (firstChecks c))))
                  inv Hinv Hover) as Hin.
    split; [exact Hin | exact (Hinvalid _ Hin)].
  - intros sk Hsk Hover.
    pose proof (validateSkills_overspent c
                  (validateAlignment alignmentDefinitions c
                     (validateArchetype validateArchetypeSelection c
                        (firstChecks c)))
                  sk Hsk Hover) as Hin.
    apply (emits_errors_kept _ _ _ _ _ (validateInventory_emits c)) in Hin.
    split; [exact Hin | exact (Hinvalid _ Hin)].
Qed.

Lemma budget_errors_cite_both_numbers_witness :
  exists r,
    validateCharacter sampleArchetypeCheck sampleAlignmentDefinitions overloaded
    = Returned r
    /\ In "Inventory weight (200) exceeds carrying capacity of 150" (errors r)
    /\ In "Total skill points (12) cannot exceed 10" (errors r)
    /\ isValid r = false.
Proof.
  pose proof (validateCharacter_returns sampleArchetypeCheck
                sampleAlignmentDefinitions overloaded (or_introl eq_refl)) as Hr.
  eexists. split; [exact Hr |].
  destruct (budget_errors_cite_both_numbers _ _ _ _ Hr) as [Hweight Hskills].
  destruct (Hweight _ eq_refl) as [Hw Hinvalid]; [cbn; lia |].
  destruct (Hskills _ eq_refl) as [Hs _]; [cbn; lia |].
  split; [exact Hw |]. split; [exact Hs | exact Hinvalid].
Defined.

Lemma validateClassRequirements_reports
    (c : Character) (r : ValidationResult) (cls : string) (a : Ability) (m : Z) :
  In (cls, a, m) classMinimumTable ->
  class c = cls ->
  abilityScore a (abilityScores c) < m ->
  In (classMinimumMessage (abilityKey a) m cls)
     (errors (validateClassRequirements c r)).
Proof.
  intros Hin Hclass Hlow.
  destruct (class_minimum_keys (abilityScores c))
    as (Hstr & Hdex & Hcon & Hint & Hwis).
  unfold validateClassRequirements. rewrite Hclass.
  cbn in Hin.
  repeat (destruct Hin as [[= <- <- <-] | Hin];
          [ cbn [tableGet classRequirements String.eqb Ascii.eqb Bool.eqb];
            cbn [fold_left]; unfold checkClassMinimum; cbn [fst snd];
            rewrite ?Hstr, ?Hdex, ?Hcon, ?Hint, ?Hwis; cbn [ltUndef];
            cbn [abilityScore] in Hlow; apply Z.ltb_lt in Hlow;
            rewrite ?Hlow, ?Hclass; unfold when;
            repeat (match goal with
                    | |- context [if ?b then _ else _] => destruct b
                    end);
            cbn [pushError errors]; rewrite ?in_app_iff; cbn [In];
            auto |]).
  destruct Hin.
Qed.

(** X4: when [validateCharacter] returns a result, every minimum score
    of the class of the character that is not met is reported by an error
    that names the ability, the minimum and the class, and [isValid] is
    false. *)
Theorem unmet_class_minimum_reported
    (validateArchetypeSelection : Character -> option ArchetypeFeature -> DelegateResult)
    (alignmentDefinitions : list (string * Alignment))
    (c : Character) (r : ValidationResult)
    (cls : string) (a : Ability) (m : Z) :
  validateCharacter validateArchetypeSelection alignmentDefinitions c = Returned r ->
  In (cls, a, m) classMinimumTable ->
  class c = cls ->
  abilityScore a (abilityScores c) < m ->
  In (capitalize (abilityKey a) +:+ " must be at least " +:+ numToString m
      +:+ " for " +:+ cls)
     (errors r)
  /\ isValid r = false.
Proof.
  intros Hr Hin Hclass Hlow.
  pose proof (fun msg => validateCharacter_error_invalid _ _ _ _ msg Hr) as Hinvalid.
  apply validateCharacter_inv in Hr as [_ ->].
  unfold conclude in *. cbn [errors] in *.
  assert (Hmsg : In (classMinimumMessage (abilityKey a) m cls)
                    (errors (runChecks validateArchetypeSelection
                               alignmentDefinitions c (firstChecks c)))).
  { apply (emits_errors_kept _ _ _ _ _
             (runChecks_emits validateArchetypeSelection alignmentDefinitions c)).
    unfold firstChecks. by apply validateClassRequirements_reports. }
  split; [exact Hmsg | exact (Hinvalid _ Hmsg)].
Qed.

Lemma unmet_class_minimum_reported_witness :
  exists r,
    validateCharacter sampleArchetypeCheck sampleAlignmentDefinitions weakFighter
    = Returned r
    /\ abilityScore Strength (abilityScores weakFighter) < 13
    /\ In "Strength must be at least 13 for Fighter" (errors r)
    /\ isValid r = false.
Proof.
  pose proof (validateCharacter_returns sampleArchetypeCheck
                sampleAlignmentDefinitions weakFighter (or_introl eq_refl)) as Hr.
  eexists. split; [exact Hr |].
  assert (Hlow : abilityScore Strength (abilityScores weakFighter) < 13)
    by (cbn; lia).
  split; [exact Hlow |].
  apply (unmet_class_minimum_reported _ _ _ _ "Fighter" Strength 13 Hr);
    [cbn; tauto | reflexivity | exact Hlow].
Defined.

(** ** Multiclassing *)

Lemma prerequisite_scores (s : AbilityScores) :
  scoreOf s "strength" = Some (strength s)
  /\ scoreOf s "dexterity" = Some (dexterity s)
  /\ scoreOf s "intelligence" = Some (intelligence s)
  /\ scoreOf s "charisma" = Some (charisma s).
Proof.
  repeat split; reflexivity.
Qed.

(** X5: [canMulticlass] refuses the class the character already has;
    for another class it accepts exactly when the scores meet the
    prerequisites of the target: strength and charisma 13 for Paladin,
    intelligence 13 for Wizard, dexterity 13 for Rogue, strength and
    dexterity 13 for Fighter, and nothing for any other class. *)
Theorem canMulticlass_iff (c : Character) (targetClass : string) :
  MulticlassSystem.canMulticlass c targetClass = true
  <-> class c <> targetClass
      /\ (targetClass = "Paladin" ->
          13 <= strength (abilityScores c) /\ 13 <= charisma (abilityScores c))
      /\ (targetClass = "Wizard" -> 13 <= intelligence (abilityScores c))
      /\ (targetClass = "Rogue" -> 13 <= dexterity (abilityScores c))
      /\ (targetClass = "Fighter" ->
          13 <= strength (abilityScores c) /\ 13 <= dexterity (abilityScores c)).
Proof.
  destruct (prerequisite_scores (abilityScores c)) as (Hstr & Hdex & Hint & Hcha).
  unfold MulticlassSystem.canMulticlass.
  destruct (String.eqb_spec (class c) targetClass) as [Hsame | Hother].
  { split; [discriminate | tauto]. }
  cbn [tableGet MulticlassSystem.multiclassPrerequisites].
  destruct (String.eqb_spec targetClass "Paladin") as [Htarget | Hpaladin];
    [| destruct (String.eqb_spec targetClass "Wizard") as [Htarget | Hwizard];
       [| destruct (String.eqb_spec targetClass "Rogue") as [Htarget | Hrogue];
          [| destruct (String.eqb_spec targetClass "Fighter")
               as [Htarget | Hfighter]]]];
    cbn [forallb]; unfold MulticlassSystem.meets; cbn [fst snd];
    rewrite ?Hstr, ?Hdex, ?Hint, ?Hcha, ?andb_true_iff, ?Z.leb_le;
    try (subst targetClass; intuition (discriminate || lia)).
  intuition congruence.
Qed.



(** ** Spell slots and spell learning *)

(** X7: [calculateSpellSlots] gives the table entry only to a Wizard or
    a Cleric of level 1, 2 or 3; every other class and every other level,
    also the levels above 3 of a Wizard or a Cleric, gets the floor of two
    cantrips and two first-level slots.  So the cantrips are 2 or 3, the
    first-level slots are between 2 and 4, second-level slots exist only
    at level 3 of the two classes, and no result has third-level slots. *)
Theorem calculateSpellSlots_spec (c : Character) :
  ((class c <> "Wizard" /\ class c <> "Cleric") \/ ~ (1 <= level c <= 3) ->
   SpellSystem.calculateSpellSlots c = SpellSystem.mkSlots 2 2 None None)
  /\ ((class c = "Wizard" \/ class c = "Cleric") ->
      1 <= level c <= 3 ->
      SpellSystem.calculateSpellSlots c
      = SpellSystem.mkSlots 3 (level c + 1)
          (if level c =? 3 then Some 2 else None) None)
  /\ 2 <= SpellSystem.cantrips (SpellSystem.calculateSpellSlots c) <= 3
  /\ 2 <= SpellSystem.level1Slots (SpellSystem.calculateSpellSlots c) <= 4
  /\ SpellSystem.level3Slots (SpellSystem.calculateSpellSlots c) = None.
Proof.
  unfold SpellSystem.calculateSpellSlots.
  cbn [tableGet SpellSystem.spellSlotProgression].
  destruct (String.eqb_spec (class c) "Wizard") as [Hw | Hw];
    [| destruct (String.eqb_spec (class c) "Cleric") as [Hc | Hc]];
    cbn [SpellSystem.levelGet];
    try (destruct (Z.eqb_spec (level c) 1) as [H1 | H1];
         [| destruct (Z.eqb_spec (level c) 2) as [H2 | H2];
            [| destruct (Z.eqb_spec (level c) 3) as [H3 | H3]]]);
    cbn [SpellSystem.cantrips SpellSystem.level1Slots SpellSystem.level3Slots];
    repeat split; try lia;
    try (intros; exfalso; intuition (congruence || lia));
    try (intros _ _; rewrite ?H1, ?H2, ?H3; reflexivity).
Qed.

Lemma calculateSpellSlots_spec_witness :
  ~ (1 <= level sampleWizard <= 3)
  /\ SpellSystem.calculateSpellSlots sampleWizard = SpellSystem.mkSlots 2 2 None None.
Proof.
  assert (Hlevel : ~ (1 <= level sampleWizard <= 3)) by (cbn; lia).
  split; [exact Hlevel |].
  apply (calculateSpellSlots_spec sampleWizard). by right.
Defined.

(** X8: [validateSpellLearning] lets a character learn a spell exactly
    when the class has spell-learning rules, the character knows fewer
    spells than the cap [maxSpellsPerLevel] of the class, and the level
    of the spell is at most [floor (level / 2)]; [canLearn] is true
    exactly when no error is returned, and a class without rules gets the
    single error that spell learning is not supported. *)
Theorem validateSpellLearning_spec (c : Character) (sp : Spell) :
  (SpellSystem.canLearn (SpellSystem.validateSpellLearning c sp) = true
   <-> exists rules,
         tableGet SpellSystem.spellLearningRules (class c) = Some rules
         /\ Z.of_nat (length (orArr (spells c) []))
            < SpellSystem.maxSpellsPerLevel rules
         /\ spell_level sp <= level c `div` 2)
  /\ (SpellSystem.canLearn (SpellSystem.validateSpellLearning c sp) = true
      <-> SpellSystem.learning_errors (SpellSystem.validateSpellLearning c sp) = [])
  /\ (tableGet SpellSystem.spellLearningRules (class c) = None ->
      SpellSystem.validateSpellLearning c sp
      = SpellSystem.mkLearning false
          ["Spell learning not supported for this class"]).
Proof.
  unfold SpellSystem.validateSpellLearning.
  destruct (tableGet SpellSystem.spellLearningRules (class c)) as [rules |] eqn:Hrules.
  - cbv zeta. rewrite floorHalf_div.
    assert (Hcount : orNum (option_map (fun l => Z.of_nat (length l)) (spells c)) 0
                     = Z.of_nat (length (orArr (spells c) []))).
    { destruct (spells c) as [l |]; cbn; [| reflexivity].
      unfold truthyNum. destruct (Z.eqb_spec (Z.of_nat (length l)) 0); cbn; lia. }
    rewrite Hcount.
    destruct (Z.leb_spec (SpellSystem.maxSpellsPerLevel rules)
                         (Z.of_nat (length (orArr (spells c) []))));
      destruct (Z.ltb_spec (level c `div` 2) (spell_level sp));
      cbn; repeat split; try discriminate; try done;
      try (intros (rules' & [= <-] & ? & ?); lia).
    intros _. exists rules. repeat split; (done || lia).
  - cbn. repeat split; try discriminate; try done.
    intros (rules' & [=] & _).
Qed.

Lemma In_firstn_inv {A : Type} (x : A) (n : nat) (l : list A) :
  In x (firstn n l) -> In x l.
Proof.
  revert n. induction l as [| y rest IH]; intros [| n]; cbn; try tauto.
  intros [-> | Hin]; [by left | right; by apply (IH n)].
Qed.

Lemma spell_lists_by_level (cls : string) (rules : SpellSystem.SpellRules)
    (key : Z) (l : list Spell) :
  tableGet SpellSystem.spellLearningRules cls = Some rules ->
  SpellSystem.levelGet (SpellSystem.spellListByLevel rules) key = Some l ->
  (key = 1 \/ key = 2)
  /\ Forall (fun sp => spell_level sp = key) l
  /\ l <> [] /\ (length l <= 3)%nat.
Proof.
  cbn [tableGet SpellSystem.spellLearningRules].
  repeat (destruct (String.eqb cls _);
          [ intros [= <-]; cbn [SpellSystem.spellListByLevel SpellSystem.levelGet];
            destruct (Z.eqb_spec key 1) as [-> | ?];
            [ intros [= <-]; repeat split;
              [by left | repeat constructor | discriminate | cbn; lia] |];
            destruct (Z.eqb_spec key 2) as [-> | ?];
            [ intros [= <-]; repeat split;
              [by right | repeat constructor | discriminate | cbn; lia] |];
            discriminate |]).
  discriminate.
Qed.

(** X9: [getNewSpellsForLevel] offers spells only to a Wizard of level 2
    or 4 and to a Cleric of level 3 or 5; at every other spell-learning
    level the table has no list under [floor (level / 2)] and nothing is
    offered.  Every spell it offers has the level [floor (level / 2)], so
    [validateSpellLearning] never refuses it for its level, and at most
    three spells are offered. *)
Theorem getNewSpellsForLevel_offers (c : Character) :
  (SpellSystem.getNewSpellsForLevel c <> []
   <-> (class c = "Wizard" /\ (level c = 2 \/ level c = 4))
       \/ (class c = "Cleric" /\ (level c = 3 \/ level c = 5)))
  /\ (length (SpellSystem.getNewSpellsForLevel c) <= 3)%nat
  /\ forall sp,
       In sp (SpellSystem.getNewSpellsForLevel c) ->
       spell_level sp = level c `div` 2
       /\ ~ In "Spell level too high for current character level"
              (SpellSystem.learning_errors
                 (SpellSystem.validateSpellLearning c sp)).
Proof.
  assert (Hlevel : forall sp,
            In sp (SpellSystem.getNewSpellsForLevel c) ->
            spell_level sp = level c `div` 2).
  { intros sp. unfold SpellSystem.getNewSpellsForLevel.
    destruct (tableGet SpellSystem.spellLearningRules (class c))
      as [rules |] eqn:Hrules; [| intros []].
    destruct (includesNum _ _); cbn [negb]; [| intros []].
    rewrite floorHalf_div,
      slice0_firstn by (eapply spellLearningRules_cap; eassumption).
    destruct (SpellSystem.levelGet _ _) as [l |] eqn:Hl; cbn [orArr].
    - destruct (spell_lists_by_level _ _ _ _ Hrules Hl) as (_ & Hall & _).
      intros Hin. apply In_firstn_inv in Hin.
      rewrite List.Forall_forall in Hall. by apply Hall.
    - rewrite firstn_nil. intros []. }
  split; [| split].
  - unfold SpellSystem.getNewSpellsForLevel.
    cbn [tableGet SpellSystem.spellLearningRules].
    destruct (String.eqb_spec (class c) "Wizard") as [Hw | Hw];
      [| destruct (String.eqb_spec (class c) "Cleric") as [Hc | Hc]].
    + cbn [SpellSystem.spellLearningLevels].
      destruct (includesNum _ (level c)) eqn:Hinc; cbn [negb].
      * apply includesNum_In in Hinc. cbn in Hinc.
        destruct Hinc as [<- | [<- | [<- | [<- | [<- | [<- | [<- | []]]]]]]];
          vm_compute; split;
          (congruence || (intros; exfalso; intuition congruence)
           || (intros _; intuition congruence)).
      * split; [congruence |].
        intros [[_ [Hl | Hl]] | [? _]]; [| | congruence];
          rewrite Hl in Hinc; discriminate.
    + cbn [SpellSystem.spellLearningLevels].
      destruct (includesNum _ (level c)) eqn:Hinc; cbn [negb].
      * apply includesNum_In in Hinc. cbn in Hinc.
        destruct Hinc
          as [<- | [<- | [<- | [<- | [<- | [<- | [<- | [<- | [<- | [<- | []]]]]]]]]]];
          vm_compute; split;
          (congruence || (intros; exfalso; intuition congruence)
           || (intros _; intuition congruence)).
      * split; [congruence |].
        intros [[? _] | [_ [Hl | Hl]]]; [congruence | |];
          rewrite Hl in Hinc; discriminate.
    + split; [congruence | intuition congruence].
  - unfold SpellSystem.getNewSpellsForLevel.
    destruct (tableGet SpellSystem.spellLearningRules (class c))
      as [rules |] eqn:Hrules; [| cbn; lia].
    destruct (includesNum _ _); cbn [negb]; [| cbn; lia].
    rewrite slice0_firstn by (eapply spellLearningRules_cap; eassumption).
    rewrite length_firstn.
    destruct (SpellSystem.levelGet _ _) as [l |] eqn:Hl; cbn [orArr].
    + destruct (spell_lists_by_level _ _ _ _ Hrules Hl) as (_ & _ & _ & Hlen). lia.
    + cbn. lia.
  - intros sp Hin. specialize (Hlevel sp Hin). split; [exact Hlevel |].
    unfold SpellSystem.validateSpellLearning.
    destruct (tableGet SpellSystem.spellLearningRules (class c)) as [rules |].
    + cbv zeta. rewrite floorHalf_div, Hlevel, Z.ltb_irrefl.
      destruct (_ <=? _); cbn; intuition discriminate.
    + cbn. intuition discriminate.
Qed.

(** ** The storage of the character manager *)

Lemma find_none_findIndex {A : Type} (p : A -> bool) (l : list A) :
  find p l = None -> CharacterManager.findIndex p l = None.
Proof.
  induction l as [| x rest IH]; cbn; [done |].
  destruct (p x); [discriminate |]. intros H. by rewrite (IH H).
Qed.

Lemma find_app_new {A : Type} (p : A -> bool) (l : list A) (y : A) :
  find p l = None -> find p (l ++ [y]) = (if p y then Some y else None).
Proof.
  induction l as [| x rest IH]; cbn; [done |].
  destruct (p x); [discriminate | exact IH].
Qed.

Lemma find_app_other {A : Type} (q : A -> bool) (l : list A) (y : A) :
  q y = false -> find q (l ++ [y]) = find q l.
Proof.
  intros Hy. induction l as [| x rest IH]; cbn; [by rewrite Hy |].
  destruct (q x); [done | exact IH].
Qed.

Lemma findIndex_length {A : Type} (p : A -> bool) (l : list A) (i : nat) :
  CharacterManager.findIndex p l = Some i -> (i < length l)%nat.
Proof.
  revert i. induction l as [| x rest IH]; intros i; cbn; [discriminate |].
  destruct (p x); [intros [= <-]; lia |].
  destruct (CharacterManager.findIndex p rest) as [j |]; [| discriminate].
  intros [= <-]. specialize (IH j eq_refl). lia.
Qed.

Lemma findIndex_after_replace {A : Type} (p : A -> bool) (l : list A)
    (i : nat) (y : A) :
  CharacterManager.findIndex p l = Some i -> p y = true ->
  CharacterManager.findIndex p (<[i := y]> l) = Some i.
Proof.
  revert i. induction l as [| x rest IH]; intros i; cbn; [discriminate |].
  destruct (p x) eqn:Hx.
  - intros [= <-] Hy. cbn. by rewrite Hy.
  - destruct (CharacterManager.findIndex p rest) as [j |] eqn:Hj; [| discriminate].
    cbn [option_map]. intros [= <-] Hy.
    change (<[S j := y]> (x :: rest)) with (x :: <[j := y]> rest).
    cbn [CharacterManager.findIndex].
    by rewrite Hx, (IH j eq_refl Hy).
Qed.

Lemma findIndex_app_new {A : Type} (p : A -> bool) (l : list A) (y : A) :
  CharacterManager.findIndex p l = None -> p y = true ->
  CharacterManager.findIndex p (l ++ [y]) = Some (length l).
Proof.
  intros Hnone Hy. induction l as [| x rest IH]; cbn in *; [by rewrite Hy |].
  destruct (p x); [discriminate |].
  destruct (CharacterManager.findIndex p rest); [discriminate |].
  by rewrite (IH eq_refl).
Qed.

Lemma insert_last {A : Type} (l : list A) (y : A) :
  <[length l := y]> (l ++ [y]) = l ++ [y].
Proof.
  induction l as [| x rest IH]; [done |].
  change (<[length (x :: rest) := y]> ((x :: rest) ++ [y]))
    with (x :: <[length rest := y]> (rest ++ [y])).
  by rewrite IH.
Qed.

Lemma findIndex_find {A : Type} (p : A -> bool) (l : list A) (i : nat) :
  CharacterManager.findIndex p l = Some i ->
  exists x, find p l = Some x /\ l !! i = Some x.
Proof.
  revert i. induction l as [| x rest IH]; intros i; cbn; [discriminate |].
  destruct (p x) eqn:Hx; [intros [= <-]; by exists x |].
  destruct (CharacterManager.findIndex p rest) as [j |]; [| discriminate].
  intros [= <-]. destruct (IH j eq_refl) as (z & ? & ?). by exists z.
Qed.

(** What [saveCharacter] does to the lookups and to the list. *)
Lemma saveCharacter_effect (c : Character) (cid : string)
    (st : CharacterManager.Storage) :
  id c = Some cid ->
  CharacterManager.getCharacterById cid (CharacterManager.saveCharacter c st)
  = Some c
  /\ (forall other,
        other <> cid ->
        CharacterManager.getCharacterById other (CharacterManager.saveCharacter c st)
        = CharacterManager.getCharacterById other st)
  /\ length (CharacterManager.getAllCharacters (CharacterManager.saveCharacter c st))
     = (match CharacterManager.getCharacterById cid st with
        | Some _ => length (CharacterManager.getAllCharacters st)
        | None => S (length (CharacterManager.getAllCharacters st))
        end)
  /\ CharacterManager.saveCharacter c (CharacterManager.saveCharacter c st)
     = CharacterManager.saveCharacter c st.
Proof.
  intros Hid.
  unfold CharacterManager.saveCharacter, CharacterManager.getCharacterById.
  rewrite Hid.
  set (l := CharacterManager.getAllCharacters st).
  set (p := fun c' : Character => CharacterManager.sameId (id c') (Some cid)).
  assert (Hp : p c = true) by (unfold p; rewrite Hid; apply sameId_refl).
  assert (Hq : forall other, other <> cid ->
                 forall x, id x = Some cid ->
                 CharacterManager.sameId (id x) (Some other) = false).
  { intros other Hother x Hx. rewrite Hx. cbn. apply String.eqb_neq. congruence. }
  destruct (CharacterManager.findIndex p l) as [i |] eqn:Hi.
  - destruct (findIndex_find _ _ _ Hi) as (x & Hfind & Hlookup).
    destruct (find_after_replace p l x c Hfind Hp) as (i' & Hi' & _ & Hnew).
    rewrite Hi in Hi'. injection Hi' as <-.
    cbn [CharacterManager.getAllCharacters].
    fold p. rewrite Hfind.
    split; [exact Hnew |]. split.
    + intros other Hother.
      apply (find_other_after_replace _ _ i x c Hlookup).
      * apply Hq; [done |]. apply find_some in Hfind as [_ Hx].
        by apply sameId_eq in Hx.
      * by apply Hq.
    + split; [apply length_insert |].
      rewrite (findIndex_after_replace _ _ _ _ Hi Hp).
      by rewrite list_insert_insert_eq.
  - assert (Hnone : find p l = None).
    { destruct (find p l) as [x |] eqn:Hfind; [| done].
      destruct (find_after_replace p l x c Hfind Hp) as (i & Hi' & _).
      congruence. }
    cbn [CharacterManager.getAllCharacters].
    fold p. rewrite Hnone, (find_app_new _ _ _ Hnone), Hp.
    split; [done |]. split.
    + intros other Hother. apply find_app_other. by apply Hq.
    + split; [rewrite length_app; cbn; lia |].
      rewrite (findIndex_app_new _ _ _ Hi Hp). by rewrite insert_last.
Qed.

(** X10: a character saved under an id is the one the storage gives back
    for that id; every other id gives the character it gave before; the
    list grows by one exactly when the id was not stored; and saving the
    same character twice is saving it once. *)
Theorem saveCharacter_then_lookup (c : Character) (cid : string)
    (st : CharacterManager.Storage) :
  id c = Some cid ->
  CharacterManager.getCharacterById cid (CharacterManager.saveCharacter c st)
  = Some c
  /\ (forall other,
        other <> cid ->
        CharacterManager.getCharacterById other (CharacterManager.saveCharacter c st)
        = CharacterManager.getCharacterById other st)
  /\ length (CharacterManager.getAllCharacters (CharacterManager.saveCharacter c st))
     = (match CharacterManager.getCharacterById cid st with
        | Some _ => length (CharacterManager.getAllCharacters st)
        | None => S (length (CharacterManager.getAllCharacters st))
        end)
  /\ CharacterManager.saveCharacter c (CharacterManager.saveCharacter c st)
     = CharacterManager.saveCharacter c st.
Proof.
  apply saveCharacter_effect.
Qed.

Lemma saveCharacter_then_lookup_witness :
  id giantFighter = Some "c-8"
  /\ CharacterManager.getCharacterById "c-8"
       (CharacterManager.saveCharacter giantFighter sampleStorage)
     = Some giantFighter
  /\ CharacterManager.getCharacterById "c-1"
       (CharacterManager.saveCharacter giantFighter sampleStorage)
     = Some sampleFighter.
Proof.
  destruct (saveCharacter_then_lookup giantFighter "c-8" sampleStorage eq_refl)
    as (Hsaved & Hothers & _).
  split; [reflexivity |]. split; [exact Hsaved |].
  rewrite (Hothers "c-1") by discriminate. reflexivity.
Defined.

(** ** The level-up and the envelope of the character manager *)

(** X11: [levelUpCharacter] never returns a character and never writes
    the storage: it fails with the error "Character not found" when the
    id is not stored, and for every stored character with the
    [TypeError] of the call of [this.calculateHitPointIncrease], a member
    that the class does not declare, before the level, the hit points or
    the experience are saved. *)
Theorem levelUpCharacter_never_saves
    (canImproveAbilityScore : Character -> string -> bool)
    (improveAbilityScore : Character -> string -> Character)
    (characterId : string) (st : CharacterManager.Storage) :
  (CharacterManager.getCharacterById characterId st = None ->
   CharacterManager.levelUpCharacter canImproveAbilityScore improveAbilityScore
     characterId st
   = (Thrown (Error "Character not found"), st))
  /\ (forall c,
        CharacterManager.getCharacterById characterId st = Some c ->
        CharacterManager.levelUpCharacter canImproveAbilityScore improveAbilityScore
          characterId st
        = (Thrown missingHitPointIncrease, st))
  /\ exists e,
       CharacterManager.levelUpCharacter canImproveAbilityScore improveAbilityScore
         characterId st
       = (Thrown e, st).
Proof.
  unfold CharacterManager.levelUpCharacter.
  destruct (CharacterManager.getCharacterById characterId st) as [c |].
  - split; [discriminate |]. split; [| by eexists].
    by intros ? [= <-].
  - split; [done |]. split; [discriminate | by eexists].
Qed.

Lemma levelUpCharacter_never_saves_witness :
  CharacterManager.getCharacterById "c-1" sampleStorage = Some sampleFighter
  /\ CharacterManager.levelUpCharacter neverImprovable noImprovement
       "c-1" sampleStorage
     = (Thrown missingHitPointIncrease, sampleStorage).
Proof.
  split; [reflexivity |].
  destruct (levelUpCharacter_never_saves neverImprovable noImprovement
              "c-1" sampleStorage) as (_ & Hstored & _).
  exact (Hstored sampleFighter eq_refl).
Defined.

(** X12: the manager exports a stored character in an envelope of
    version 1.0.0 that holds the character as it is stored, and fails
    with "Character not found" for an id that is not stored.  Importing
    an envelope of version 1.0.0 never validates: it gives the character
    the next generated id, keeps every other property, also [status] and
    [campaignId], and saves it, so that the storage gives it back for the
    new id and is unchanged for every other id.  An envelope of another
    version is refused with the error "Incompatible export version"
    without drawing an id or writing the storage. *)
Theorem manager_export_import
    (toISOString : Z -> string)
    (characterId : string) (st st2 : CharacterManager.Storage) (w w2 : World) :
  (CharacterManager.getCharacterById characterId st = None ->
   CharacterManager.exportCharacter toISOString characterId st w
   = (Thrown (Error "Character not found"), w))
  /\ (forall c,
        CharacterManager.getCharacterById characterId st = Some c ->
        exists envelope w1,
          CharacterManager.exportCharacter toISOString characterId st w
          = (Returned envelope, w1)
          /\ CharacterManager.ce_version envelope = "1.0.0"
          /\ CharacterManager.ce_character envelope = c
          /\ exists w3,
               CharacterManager.importCharacter envelope st2 w2
               = (Returned (withId (Some (uuids w2 (uuidsDrawn w2))) c),
                  CharacterManager.saveCharacter
                    (withId (Some (uuids w2 (uuidsDrawn w2))) c) st2,
                  w3)
               /\ CharacterManager.getCharacterById (uuids w2 (uuidsDrawn w2))
                    (CharacterManager.saveCharacter
                       (withId (Some (uuids w2 (uuidsDrawn w2))) c) st2)
                  = Some (withId (Some (uuids w2 (uuidsDrawn w2))) c)
               /\ forall other,
                    other <> uuids w2 (uuidsDrawn w2) ->
                    CharacterManager.getCharacterById other
                      (CharacterManager.saveCharacter
                         (withId (Some (uuids w2 (uuidsDrawn w2))) c) st2)
                    = CharacterManager.getCharacterById other st2)
  /\ (forall envelope,
        CharacterManager.ce_version envelope <> "1.0.0" ->
        CharacterManager.importCharacter envelope st2 w2
        = (Thrown (Error "Incompatible export version"), st2, w2)).
Proof.
  split; [| split].
  - intros Hnone. unfold CharacterManager.exportCharacter. by rewrite Hnone.
  - intros c Hfound. unfold CharacterManager.exportCharacter. rewrite Hfound.
    unfold Date_now. eexists _, _. split; [reflexivity |].
    cbn [CharacterManager.ce_version CharacterManager.ce_character].
    split; [reflexivity |]. split; [reflexivity |].
    unfold CharacterManager.importCharacter.
    cbn [CharacterManager.ce_version CharacterManager.ce_character].
    change (String.eqb "1.0.0" "1.0.0") with true. cbn [negb].
    unfold uuidv4. eexists. split; [reflexivity |].
    destruct (saveCharacter_effect
                (withId (Some (uuids w2 (uuidsDrawn w2))) c)
                (uuids w2 (uuidsDrawn w2)) st2 eq_refl) as (Hsaved & Hothers & _).
    split; [exact Hsaved | exact Hothers].
  - intros envelope Hversion. unfold CharacterManager.importCharacter.
    destruct (String.eqb_spec (CharacterManager.ce_version envelope) "1.0.0");
      [contradiction | reflexivity].
Qed.

Lemma manager_export_import_witness :
  CharacterManager.getCharacterById "c-1" sampleStorage = Some sampleFighter
  /\ exists envelope w1 w3,
       CharacterManager.exportCharacter sampleISO "c-1" sampleStorage sampleWorld
       = (Returned envelope, w1)
       /\ CharacterManager.importCharacter envelope sampleStorage nextDay
          = (Returned (withId (Some "uuid-1") sampleFighter),
             CharacterManager.saveCharacter (withId (Some "uuid-1") sampleFighter)
               sampleStorage,
             w3).
Proof.
  split; [reflexivity |].
  destruct (manager_export_import sampleISO "c-1" sampleStorage sampleStorage
              sampleWorld nextDay) as (_ & Hstored & _).
  destruct (Hstored sampleFighter eq_refl)
    as (envelope & w1 & Hexport & _ & _ & w3 & Himport & _).
  exists envelope, w1, w3. split; [exact Hexport | exact Himport].
Defined.

(** ** Backups and the safety of the import *)



(** X14: whenever [importCharacter] returns a character, the envelope
    had version 1.1.0 and was at most 365 days old, the character is the
    one of the envelope under the id drawn at the import, and the
    validation of that character returned no error; a result without
    success carries no character. *)
Theorem importCharacter_returns_only_valid
    (validateArchetypeSelection : Character -> option ArchetypeFeature -> DelegateResult)
    (alignmentDefinitions : list (string * Alignment))
    (d : ExportFormat) (w w' : World) (res : ImportResult) :
  importCharacter validateArchetypeSelection alignmentDefinitions d w
  = (Returned res, w') ->
  (import_success res = false -> import_character res = None)
  /\ (import_success res = true ->
      version d = "1.1.0"
      /\ clock w (clockReads w) - timestamp d <= MAX_EXPORT_AGE
      /\ import_character res
         = Some (withId (Some (uuids w (uuidsDrawn w))) (character d))
      /\ exists r,
           validateCharacter validateArchetypeSelection alignmentDefinitions
             (withId (Some (uuids w (uuidsDrawn w))) (character d))
           = Returned r
           /\ errors r = []).
Proof.
  unfold importCharacter.
  destruct (String.eqb_spec (version d) "1.1.0") as [Hversion | _]; cbn [negb];
    [| intros [= <- _]; split; [done | discriminate]].
  unfold Date_now, uuidv4. cbn [clock clockReads uuids uuidsDrawn].
  destruct (Z.ltb_spec MAX_EXPORT_AGE (clock w (clockReads w) - timestamp d))
    as [_ | Hage]; [intros [= <- _]; split; [done | discriminate] |].
  destruct (validateCharacter _ _ _) as [r | e] eqn:Hr; [| discriminate].
  destruct (isValid r) eqn:Hvalid; cbn [negb];
    intros [= <- _]; (split; [done || discriminate |]); [| discriminate].
  intros _. repeat split; try done.
  exists r. split; [reflexivity |].
  by apply (validateCharacter_isValid _ _ _ _ Hr).
Qed.

Lemma importCharacter_returns_only_valid_witness :
  importCharacter sampleArchetypeCheck sampleAlignmentDefinitions
    staleEnvelope nextDay
  = (Returned (mkImportResult false None (Some ["Export data is too old"])),
     mkWorld (clock nextDay) 1 sampleIds 1)
  /\ import_character
       (mkImportResult false None (Some ["Export data is too old"])) = None.
Proof.
  assert (Hrun : importCharacter sampleArchetypeCheck sampleAlignmentDefinitions
                   staleEnvelope nextDay
                 = (Returned (mkImportResult false None
                                (Some ["Export data is too old"])),
                    mkWorld (clock nextDay) 1 sampleIds 1))
    by reflexivity.
  split; [exact Hrun |].
  destruct (importCharacter_returns_only_valid sampleArchetypeCheck
              sampleAlignmentDefinitions staleEnvelope nextDay _ _ Hrun)
    as [Hfailed _].
  exact (Hfailed eq_refl).
Defined.

(** ** Campaign lists and what the validation does not read *)

Lemma getCharactersByCampaign_In (campaign : string)
    (st : CharacterManager.Storage) (c : Character) :
  In c (CharacterManager.getCharactersByCampaign campaign st)
  <-> In c (CharacterManager.getAllCharacters st) /\ campaignId c = Some campaign.
Proof.
  unfold CharacterManager.getCharactersByCampaign.
  rewrite <- list_elem_of_In, list_elem_of_filter, list_elem_of_In.
  split.
  - intros [Hsame Hin]. split; [done |].
    apply Is_true_true in Hsame. by apply sameId_eq in Hsame.
  - intros [Hin Hcampaign]. split; [| done].
    apply Is_true_true. rewrite Hcampaign. apply sameId_refl.
Qed.

(** X15: [getCharactersByCampaign] lists exactly the stored characters
    whose [campaignId] is the given one.  A character that comes back
    from an export and an import of [CharacterExportSystem] has lost its
    campaign: once saved it is found under its new id and is listed under
    no campaign, whatever campaign the original belonged to. *)
Theorem imported_character_in_no_campaign
    (validateArchetypeSelection : Character -> option ArchetypeFeature -> DelegateResult)
    (alignmentDefinitions : list (string * Alignment))
    (c : Character) (r : ValidationResult) (w w2 : World)
    (st : CharacterManager.Storage) :
  readsGameData validateArchetypeSelection ->
  validateCharacter validateArchetypeSelection alignmentDefinitions c = Returned r ->
  isValid r = true ->
  clock w2 (clockReads w2) - clock w (clockReads w) <= MAX_EXPORT_AGE ->
  (forall campaign x,
     In x (CharacterManager.getCharactersByCampaign campaign st)
     <-> In x (CharacterManager.getAllCharacters st) /\ campaignId x = Some campaign)
  /\ exists d w1 imported w3,
       exportCharacter validateArchetypeSelection alignmentDefinitions c w
       = (Returned (mkExportResult true (Some d) None), w1)
       /\ importCharacter validateArchetypeSelection alignmentDefinitions d w2
          = (Returned (mkImportResult true (Some imported) None), w3)
       /\ CharacterManager.getCharacterById (uuids w2 (uuidsDrawn w2))
            (CharacterManager.saveCharacter imported st)
          = Some imported
       /\ forall campaign,
            ~ In imported
                (CharacterManager.getCharactersByCampaign campaign
                   (CharacterManager.saveCharacter imported st)).
Proof.
  intros Hreads Hr Hvalid Hage.
  split; [intros campaign x; apply getCharactersByCampaign_In |].
  destruct (import_after_export validateArchetypeSelection alignmentDefinitions
              c r w w2 Hreads Hr Hvalid)
    as (d & w1 & Hexport & Hversion & Htime & Himport).
  destruct (Himport d eq_refl eq_refl) as (w3 & Hw3); [by rewrite Htime |].
  exists d, w1,
    (importedFrom c (uuids w2 (uuidsDrawn w2)) (clock w (S (clockReads w)))), w3.
  split; [exact Hexport |]. split; [exact Hw3 |].
  split.
  - exact (proj1 (saveCharacter_effect
                    (importedFrom c (uuids w2 (uuidsDrawn w2))
                                  (clock w (S (clockReads w))))
                    (uuids w2 (uuidsDrawn w2)) st eq_refl)).
  - intros campaign Hin. apply getCharactersByCampaign_In in Hin as [_ Hcampaign].
    discriminate Hcampaign.
Qed.

Lemma imported_character_in_no_campaign_witness :
  campaignId sampleFighter = Some "campaign-1"
  /\ exists imported,
       CharacterManager.getCharacterById "uuid-1"
         (CharacterManager.saveCharacter imported sampleStorage)
       = Some imported
       /\ name imported = "Aria"
       /\ ~ In imported
             (CharacterManager.getCharactersByCampaign "campaign-1"
                (CharacterManager.saveCharacter imported sampleStorage)).
Proof.
  split; [reflexivity |].
  destruct (imported_character_in_no_campaign sampleArchetypeCheck
              sampleAlignmentDefinitions sampleFighter _ sampleWorld nextDay
              sampleStorage sampleArchetypeCheck_readsGameData
              sampleFighter_valid eq_refl)
    as (_ & d & w1 & imported & w3 & Hexport & Himport & Hsaved & Hnone).
  { vm_compute. discriminate. }
  destruct (import_after_export sampleArchetypeCheck sampleAlignmentDefinitions
              sampleFighter _ sampleWorld nextDay
              sampleArchetypeCheck_readsGameData sampleFighter_valid eq_refl)
    as (d0 & w0 & Hexport0 & _ & Htime & Himport0).
  rewrite Hexport in Hexport0. injection Hexport0 as <- <-.
  destruct (Himport0 d eq_refl eq_refl) as (w3' & Hw3');
    [rewrite Htime; vm_compute; discriminate |].
  rewrite Himport in Hw3'. injection Hw3' as -> _.
  eexists. split; [exact Hsaved |]. split; [reflexivity | apply Hnone].
Defined.

(** X16: the validation reads the name, the race, the class, the level,
    the ability scores, the inventory, the backstory, the traits, the
    multiclass list, the alignment and the skills, and hands the
    character to the archetype delegate only when an archetype is
    selected.  Two characters without a selected archetype that agree on
    these properties get the same result: the hit points, the armor
    class, the experience, the spells, the status, the id and the
    campaign are never checked. *)
Theorem validateCharacter_reads_only
    (validateArchetypeSelection : Character -> option ArchetypeFeature -> DelegateResult)
    (alignmentDefinitions : list (string * Alignment))
    (c c' : Character) :
  name c = name c' -> race c = race c' -> class c = class c' ->
  level c = level c' -> abilityScores c = abilityScores c' ->
  inventory c = inventory c' -> backstory c = backstory c' ->
  traits c = traits c' -> multiclass c = multiclass c' ->
  alignment c = alignment c' -> skills c = skills c' ->
  archetypeFeatures c = None -> archetypeFeatures c' = None ->
  validateCharacter validateArchetypeSelection alignmentDefinitions c
  = validateCharacter validateArchetypeSelection alignmentDefinitions c'.
Proof.
  destruct c, c'. cbn [name race class level abilityScores inventory backstory
                       traits multiclass alignment skills archetypeFeatures].
  intros -> -> -> -> -> -> -> -> -> -> -> -> ->.
  reflexivity.
Qed.

Lemma validateCharacter_reads_only_witness :
  hitPoints woundedFighter = -7
  /\ validateCharacter sampleArchetypeCheck sampleAlignmentDefinitions woundedFighter
     = Returned (mkResult true []
                   ["No archetype selected for Fighter"; "No alignment specified"]).
Proof.
  split; [reflexivity |].
  rewrite (validateCharacter_reads_only sampleArchetypeCheck
             sampleAlignmentDefinitions woundedFighter sampleFighter
             eq_refl eq_refl eq_refl eq_refl eq_refl eq_refl eq_refl eq_refl
             eq_refl eq_refl eq_refl eq_refl eq_refl).
  exact sampleFighter_valid.
Defined.

(** ** The count of the inventory errors *)

Lemma checkUniqueItem_count (inv : list CharacterItem) :
  forall (seen : gset string) (r : ValidationResult),
    (length (errors (fold_left checkUniqueItem inv (seen, r)).2)
     + size (seen ∪ list_to_set (map item_id inv)))%nat
    = (length (errors r) + size seen + length inv)%nat.
Proof.
  induction inv as [| item rest IH]; intros seen r; cbn [fold_left map list_to_set].
  - cbn. rewrite (right_id_L ∅ (∪)). lia.
  - unfold checkUniqueItem at 2. cbn [fst snd].
    assert (Hsets : seen ∪ ({[item_id item]} ∪ list_to_set (map item_id rest))
                    = ({[item_id item]} ∪ seen) ∪ list_to_set (map item_id rest)).
    { rewrite (assoc_L (∪)). f_equal. apply (comm_L (∪)). }
    rewrite Hsets, IH.
    destruct (decide (item_id item ∈ seen)) as [Hin | Hnotin].
    + rewrite bool_decide_eq_true_2 by done. cbn [when pushError errors].
      rewrite length_app. cbn [length].
      assert (Hsame : {[item_id item]} ∪ seen = seen).
      { apply subseteq_union_1_L. by apply singleton_subseteq_l. }
      rewrite Hsame. cbn [length]. lia.
    + rewrite bool_decide_eq_false_2 by done. cbn [when].
      rewrite size_union by (by apply disjoint_singleton_l).
      rewrite size_singleton. cbn [length]. lia.
Qed.

(** X17: [validateInventory] adds one error when the inventory weighs
    more than [15 * strength], and one error for every item whose id
    occurred earlier in the inventory: as many as there are items beyond
    the number of distinct ids. *)
Theorem validateInventory_error_count
    (c : Character) (r : ValidationResult) (inv : list CharacterItem) :
  inventory c = Some inv ->
  length (errors (validateInventory c r))
  = (length (errors r)
     + (if (15 * strength (abilityScores c) <? weightTotal inv)%Z then 1 else 0)
     + (length inv - size (list_to_set (map item_id inv) : gset string)))%nat.
Proof.
  intros Hinv. unfold validateInventory. rewrite Hinv. cbv zeta.
  rewrite inventory_weight_total.
  set (r1 := when (gtFourFifths _ _) _ _).
  pose proof (checkUniqueItem_count inv ∅ r1) as Hcount.
  rewrite (left_id_L ∅ (∪)), size_empty in Hcount.
  assert (Hr1 : length (errors r1)
                = (length (errors r)
                   + (if (15 * strength (abilityScores c) <? weightTotal inv)%Z
                      then 1 else 0))%nat).
  { subst r1. rewrite errors_when_pushWarning.
    destruct (15 * strength (abilityScores c) <? weightTotal inv); cbn.
    - rewrite length_app. cbn. lia.
    - lia. }
  assert (Hdistinct : (size (list_to_set (map item_id inv) : gset string)
                       <= length inv)%nat).
  { clear. induction inv as [| item rest IH]; cbn [map list_to_set length].
    - by rewrite size_empty.
    - rewrite size_union_alt, size_singleton.
      assert (size (list_to_set (map item_id rest) ∖ {[item_id item]} : gset string)
              <= size (list_to_set (map item_id rest) : gset string))%nat
        by (apply subseteq_size, subseteq_difference_l; reflexivity).
      lia. }
  lia.
Qed.

Lemma validateInventory_error_count_witness :
  inventory duplicateCarrier
  = Some [ mkItem "i-1" "Rope" (Some 10); mkItem "i-2" "Torch" (Some 1);
           mkItem "i-1" "Rope" (Some 10); mkItem "i-1" "Hook" (Some 2) ]
  /\ length (errors (validateInventory duplicateCarrier (mkResult true [] [])))
     = 2%nat.
Proof.
  split; [reflexivity |].
  rewrite (validateInventory_error_count duplicateCarrier (mkResult true [] [])
             _ eq_refl).
  vm_compute. reflexivity.
Defined.

(** ** Background updates of a character without trait lists *)


